(** * Monitor110 revival: the alert-dispatch engine of [backend/app.py]

    A shallow embedding of the sentiment/urgency classification, the keyword
    matcher, the on-demand trigger ([trigger_check]) and the scheduled scan
    ([run_scheduled_alert_check]) of the Flask backend, with the properties
    the specification states about them.

    Modelling conventions.
    - Python [str] values are [string]s of UTF-8 bytes.  [str.lower()] acts
      on the ASCII letters and leaves every other byte alone, which is what
      Python does on text whose non-ASCII characters have no lower-case
      form of their own (digits, punctuation, [ß], emoji, ...); the
      lower-casing of other non-ASCII letters is not modelled.
    - The VADER compound score and the wall-clock time are Python floats.
      VADER rounds the compound score to four decimals, so its comparisons
      with the literals 0.05, -0.05 and -0.5 agree with the comparisons of
      the corresponding rationals; scores and times are modelled in [Q], with
      exact subtraction.
    - A Python [set] of strings is a [gset string]; the order in which Python
      iterates over a set is not fixed by the language, so it is a parameter
      of the model ([set_order]).
    - The outside world (the Telegram HTTP endpoint, the three signal
      sources) is an abstract state [W] threaded through every call. *)

From Stdlib Require Import Ascii String DecimalString QArith Lqa.
From stdpp Require Import gmap strings list.

Local Open Scope string_scope.
Local Open Scope list_scope.
Local Open Scope nat_scope.

(** ** Python string primitives *)

Module PyStr.

(** [c.lower()] on one byte. *)
Definition lower_ascii (c : ascii) : ascii :=
  let n := Ascii.N_of_ascii c in
  if ((65 <=? n) && (n <=? 90))%N then Ascii.ascii_of_N (n + 32) else c.

(** [c.upper()] on one byte. *)
Definition upper_ascii (c : ascii) : ascii :=
  let n := Ascii.N_of_ascii c in
  if ((97 <=? n) && (n <=? 122))%N then Ascii.ascii_of_N (n - 32) else c.

(** [s.lower()]: the ASCII letters are lower-cased and every other byte is
    kept.  This is Python's result on every string whose non-ASCII
    characters have no lower-case mapping; other non-ASCII letters (such as
    [É]) are outside what this function models. *)
Fixpoint lower (s : string) : string :=
  match s with
  | EmptyString => EmptyString
  | String c r => String (lower_ascii c) (lower r)
  end.

(** [s.upper()]: the ASCII letters are upper-cased, and the letter [ß] (the
    two UTF-8 bytes 195, 159), which has no upper-case form of its own,
    becomes [SS] as in Python. *)
Fixpoint upper (s : string) : string :=
  match s with
  | EmptyString => EmptyString
  | String c r =>
      match r with
      | String c' r' =>
          if ((Ascii.N_of_ascii c =? 195) && (Ascii.N_of_ascii c' =? 159))%N
          then String "S" (String "S" (upper r'))
          else String (upper_ascii c) (upper r)
      | EmptyString => String (upper_ascii c) EmptyString
      end
  end.

(** [s.capitalize()]: first character upper-cased, the rest lower-cased. *)
Definition capitalize (s : string) : string :=
  match s with
  | EmptyString => EmptyString
  | String c r => String (upper_ascii c) (lower r)
  end.

(** [s.startswith(p)] *)
Fixpoint startswith (p s : string) : bool :=
  match p, s with
  | EmptyString, _ => true
  | String _ _, EmptyString => false
  | String a p', String b s' => if Ascii.eqb a b then startswith p' s' else false
  end.

(** [needle in hay] *)
Fixpoint contains (needle hay : string) : bool :=
  startswith needle hay ||
  match hay with
  | EmptyString => false
  | String _ r => contains needle r
  end.

(** [sep.join(l)] *)
Fixpoint join (sep : string) (l : list string) : string :=
  match l with
  | [] => ""
  | [x] => x
  | x :: r => x +:+ sep +:+ join sep r
  end.

(** Toggle the case of one byte. *)
Definition swap_ascii (c : ascii) : ascii :=
  let n := Ascii.N_of_ascii c in
  if ((65 <=? n) && (n <=? 90))%N then Ascii.ascii_of_N (n + 32)
  else if ((97 <=? n) && (n <=? 122))%N then Ascii.ascii_of_N (n - 32)
  else c.

(** An arbitrary case transformation of [s]: the byte at position [i] has its
    case toggled exactly when [m i] holds (a byte that is not an ASCII letter
    has no case and stays as it is). *)
Fixpoint recase_from (m : nat -> bool) (i : nat) (s : string) : string :=
  match s with
  | EmptyString => EmptyString
  | String c r => String (if m i then swap_ascii c else c) (recase_from m (S i) r)
  end.

Definition recase (m : nat -> bool) (s : string) : string := recase_from m 0 s.


End PyStr.

(** ** Data model *)

Inductive Sentiment := Positive | Negative | Neutral.

Inductive Urgency := low | medium | high | critical.

#[global] Instance Sentiment_eq_dec : EqDecision Sentiment.
Proof. solve_decision. Defined.

#[global] Instance Urgency_eq_dec : EqDecision Urgency.
Proof. solve_decision. Defined.

(** The ["id"] of a signal: the built-in signals carry integers, the fetched
    ones strings. *)
Inductive SignalId :=
  | IdInt (n : Z)
  | IdStr (s : string).

(** One signal dictionary, with the five keys every producer fills in. *)
Record Signal := mkSignal {
  sig_id : SignalId;
  sig_source : string;
  sig_headline : string;
  sig_content : string;
  sig_keywords : list string
}.

(** A signal after [analyze_signals_with_llm]: the original keys plus the
    five added ones. *)
Record Analyzed := mkAnalyzed {
  a_signal : Signal;
  a_sentiment : Sentiment;
  a_sentiment_score : Q;
  a_ai_analysis : string;
  a_urgency : Urgency;
  a_recommendation : string
}.

(** One entry of [stored_data["users"]]; ["chat_id"] may be missing. *)
Record UserData := mkUser {
  u_chat_id : option string;
  u_watchlist : list string
}.

Definition sentiment_str (l : Sentiment) : string :=
  match l with
  | Positive => "Positive"
  | Negative => "Negative"
  | Neutral => "Neutral"
  end.

Definition urgency_str (u : Urgency) : string :=
  match u with
  | low => "low"
  | medium => "medium"
  | high => "high"
  | critical => "critical"
  end.

(** Python truthiness of an optional string ([None] and [""] are falsy). *)
Definition truthy (o : option string) : bool :=
  match o with
  | Some (String _ _) => true
  | _ => false
  end.

(** Comparisons of scores and times. *)
Definition Qge_bool (x y : Q) : bool := Qle_bool y x.
Definition Qlt_bool (x y : Q) : bool := negb (Qle_bool y x).

Definition str_of_nat (n : nat) : string :=
  NilZero.string_of_uint (Nat.to_uint n).

Definition nl : string := String (Ascii.ascii_of_nat 10) "".

(** ** Everything the engine calls but does not define

    [W] is the state of the outside world.  The fields are the library and
    network primitives of [app.py]; the engine is modelled from the source on
    top of them. *)
Class Externals (W : Type) := {
  (** [analyzer.polarity_scores(text)["compound"]] *)
  polarity_compound : string -> Q;
  (** [round(x, 3)] and [f"{x:.2f}"] on floats *)
  round3 : Q -> Q;
  format_2f : Q -> string;
  (** [os.getenv("TELEGRAM_BOT_TOKEN")] *)
  TELEGRAM_BOT_TOKEN : option string;
  (** [requests.post(TELEGRAM_API_URL, json=payload, timeout=10)] on the
      payload's chat id and text: the status code of the response, or [None]
      for a [requests.RequestException] *)
  requests_post : string -> string -> W -> option Z * W;
  (** the three signal sources; each absorbs its own failures *)
  fetch_reddit_signals : W -> list Signal * W;
  fetch_yahoo_signals : W -> list Signal * W;
  fetch_moneycontrol_signals : W -> list Signal * W;
  (** [load_data()], [None] when reading the JSON file raises; the users
      dictionary keeps the order of the file *)
  load_data : W -> option (list (string * UserData)) * W;
  (** [time.time()] *)
  time_time : W -> Q * W;
  (** the order in which Python enumerates a set of strings *)
  set_order : gset string -> list string;
  set_order_perm : forall X, set_order X ≡ₚ elements X
}.

(** ** Process state *)

(** One call of the notification transport and its outcome. *)
Record SendEvent := mkSend {
  ev_chat_id : string;
  ev_message : string;
  ev_ok : bool
}.

(** One alert of the scheduled path that was sent and counted. *)
Record Dispatch := mkDispatch {
  d_user : string;
  d_signal_id : SignalId;
  d_topic : string
}.

(** The state a request or a scheduled run works on: the outside world and
    the global [sent_alert_cache] ([{user: {topic: timestamp}}]), together
    with two histories that only record what happened: every call of the
    transport, and every alert counted by the scheduled path. *)
Record St (W : Type) := mkSt {
  st_world : W;
  sent_alert_cache : gmap string (gmap string Q);
  st_sends : list SendEvent;
  st_dispatched : list Dispatch
}.
Arguments mkSt {W}.
Arguments st_world {W}.
Arguments sent_alert_cache {W}.
Arguments st_sends {W}.
Arguments st_dispatched {W}.

(** State-passing computations. *)
Definition M (W A : Type) : Type := St W -> A * St W.

Definition ret {W A} (a : A) : M W A := fun s => (a, s).

Definition bind {W A B} (m : M W A) (k : A -> M W B) : M W B :=
  fun s => let (a, s') := m s in k a s'.

Notation "'do' x <- m ; k" := (bind m (fun x => k))
  (at level 10, x name, m at level 100, k at level 200,
   format "'[v' 'do'  x  <-  m ; '/' k ']'").
Notation "'exec' m ; k" := (bind m (fun _ => k))
  (at level 10, m at level 100, k at level 200,
   format "'[v' 'exec'  m ; '/' k ']'").

(** Run a primitive of the outside world. *)
Definition lift_world {W A} (f : W -> A * W) : M W A :=
  fun s => let (a, w) := f (st_world s) in
           (a, mkSt w (sent_alert_cache s) (st_sends s) (st_dispatched s)).

Definition log_send {W} (e : SendEvent) : M W unit :=
  fun s => (tt, mkSt (st_world s) (sent_alert_cache s) (st_sends s ++ [e]) (st_dispatched s)).

Definition log_dispatch {W} (d : Dispatch) : M W unit :=
  fun s => (tt, mkSt (st_world s) (sent_alert_cache s) (st_sends s) (st_dispatched s ++ [d])).

Definition get_cache {W} : M W (gmap string (gmap string Q)) :=
  fun s => (sent_alert_cache s, s).

Definition set_cache {W} (c : gmap string (gmap string Q)) : M W unit :=
  fun s => (tt, mkSt (st_world s) c (st_sends s) (st_dispatched s)).

(** What a history gained between two states: the suffix of [after] past the
    length of [before]. *)
Definition since {A} (before after : list A) : list A := drop (length before) after.

(** The number of transport calls of a history that returned success. *)
Definition count_ok (evs : list SendEvent) : nat := length (filter (fun e => ev_ok e = true) evs).

(** The alerts a history counted for one user. *)
Definition dispatches_of (username : string) (ds : list Dispatch) : list Dispatch :=
  filter (fun d => d_user d = username) ds.

(** The ledger entry of a (user, topic) pair. *)
Definition ledger (c : gmap string (gmap string Q)) (user topic : string) : option Q :=
  c !! user ≫= fun m => m !! topic.

(** ** The built-in signals *)

Definition MOCK_SIGNALS : list Signal := [
  mkSignal (IdInt 1) "Reuters"
    "Apple reports record quarterly earnings, stock surges 5%"
    "Apple Inc. announced exceptional quarterly results, beating analyst expectations."
    ["Apple"; "AAPL"; "earnings"];
  mkSignal (IdInt 2) "Bloomberg"
    "Bitcoin crashes 15% amid regulatory fears"
    "Cryptocurrency markets tumble as SEC announces new enforcement actions against major exchanges."
    ["Bitcoin"; "BTC"; "crypto"; "SEC"];
  mkSignal (IdInt 3) "CNBC"
    "Tesla faces production delays, shares drop 8%"
    "Tesla Inc. announced significant production challenges at its Berlin factory, causing investor concern."
    ["Tesla"; "TSLA"; "EV"];
  mkSignal (IdInt 4) "Financial Times"
    "Microsoft Azure growth exceeds expectations"
    "Microsoft's cloud computing division continues strong performance, driving overall company growth."
    ["Microsoft"; "MSFT"; "Azure"; "cloud"];
  mkSignal (IdInt 5) "Twitter/X"
    "BREAKING: Major bank announces massive layoffs"
    "One of the largest investment banks is cutting 10,000 jobs worldwide amid economic uncertainty."
    ["banking"; "layoffs"; "recession"];
  mkSignal (IdInt 6) "Reddit r/wallstreetbets"
    "GameStop sees unusual trading activity again"
    "Retail investors are buzzing about potential short squeeze opportunities in GME stock."
    ["GameStop"; "GME"; "meme stocks"];
  mkSignal (IdInt 7) "Associated Press"
    "Oil prices stable as OPEC maintains production levels"
    "Crude oil markets remain steady following OPEC's decision to keep current output quotas."
    ["oil"; "OPEC"; "energy"];
  mkSignal (IdInt 8) "CoinDesk"
    "Ethereum upgrade causes network instability"
    "The latest Ethereum protocol update has resulted in temporary network congestion and failed transactions."
    ["Ethereum"; "ETH"; "crypto"]
].

(** One element of the ["details"] list of [trigger_check]. *)
Record MatchRecord := mkMatch {
  m_user : string;
  m_signal_id : SignalId;
  m_headline : string;
  m_matched_keywords : list string;
  m_sentiment : Sentiment;
  m_urgency : Urgency;
  m_ai_analysis : string
}.

(** The JSON body [trigger_check] returns. *)
Record TriggerResult := mkResult {
  r_success : bool;
  r_alerts_sent : nat;
  r_matches_found : nat;
  r_market_summary : string;
  r_details : list MatchRecord
}.

(** How a scheduled run ends: it returns early when no user is registered,
    it runs to the final log line with its count of sent alerts, or an
    exception reaches the [except Exception] handler. *)
Inductive RunOutcome :=
  | Skipped
  | Completed (alerts_sent : nat)
  | Failed.

(** ** The engine *)

Section Engine.
Context {W : Type} `{E : Externals W}.

(** [analyze_sentiment(text)] *)
Definition analyze_sentiment (text : string) : Sentiment * Q :=
  let compound := polarity_compound text in
  let label :=
    if Qge_bool compound 0.05 then Positive
    else if Qle_bool compound (-0.05) then Negative
    else Neutral in
  (label, compound).

(** [send_telegram_alert(chat_id, message)] *)
Definition send_telegram_alert (chat_id message : string) : M W bool :=
  do ok <- (if negb (truthy TELEGRAM_BOT_TOKEN) then ret false
            else do response <- lift_world (requests_post chat_id message);
                 ret (match response with
                      | Some status_code => (status_code =? 200)%Z
                      | None => false
                      end));
  exec log_send (mkSend chat_id message ok);
  ret ok.

(** [fetch_all_signals()] *)
Definition fetch_all_signals : M W (list Signal) :=
  do reddit <- lift_world fetch_reddit_signals;
  do yahoo <- lift_world fetch_yahoo_signals;
  do moneycontrol <- lift_world fetch_moneycontrol_signals;
  let all_signals := (reddit ++ yahoo ++ moneycontrol)%list in
  match all_signals with
  | [] => ret MOCK_SIGNALS
  | _ :: _ => ret all_signals
  end.

(** The text both classifiers of [analyze_signals_with_llm] look at. *)
Definition full_text (signal : Signal) : string :=
  sig_headline signal +:+ " " +:+ sig_content signal.

(** The lexical test of the urgency logic: ["crash" in full_text.lower() or
    "plunge" in full_text.lower()]. *)
Definition has_crisis_lexeme (signal : Signal) : bool :=
  PyStr.contains "crash" (PyStr.lower (full_text signal))
  || PyStr.contains "plunge" (PyStr.lower (full_text signal)).

(** The body of the loop of [analyze_signals_with_llm] for one signal, without
    the two counters. *)
Definition analyze_signal (signal : Signal) : Analyzed :=
  let '(sentiment_label, sentiment_score) := analyze_sentiment (full_text signal) in
  let urgency := low in
  let urgency :=
    match sentiment_label with
    | Negative =>
        let urgency := if Qlt_bool sentiment_score (-0.5) then high else urgency in
        if PyStr.contains "crash" (PyStr.lower (full_text signal))
           || PyStr.contains "plunge" (PyStr.lower (full_text signal))
        then critical else urgency
    | _ => urgency
    end in
  mkAnalyzed signal sentiment_label (round3 sentiment_score)
    ("VADER Score: " +:+ format_2f sentiment_score +:+ " (" +:+ sentiment_str sentiment_label +:+ ")")
    urgency
    (match urgency with high | critical => "Monitor" | _ => "Hold" end).

(** The loop of [analyze_signals_with_llm], with its three accumulators. *)
Fixpoint analyze_loop (signals : list Signal) (analyzed : list Analyzed)
    (bearish_count bullish_count : nat) : list Analyzed * nat * nat :=
  match signals with
  | [] => (analyzed, bearish_count, bullish_count)
  | signal :: rest =>
      let a := analyze_signal signal in
      let bearish_count :=
        match a_sentiment a with Negative => S bearish_count | _ => bearish_count end in
      let bullish_count :=
        match a_sentiment a with Positive => S bullish_count | _ => bullish_count end in
      analyze_loop rest (analyzed ++ [a]) bearish_count bullish_count
  end.

(** [analyze_signals_with_llm(signals)] *)
Definition analyze_signals_with_llm (signals : list Signal) : list Analyzed * string :=
  let '(analyzed, bearish_count, bullish_count) := analyze_loop signals [] 0 0 in
  let market_state := if (bullish_count <? bearish_count)%nat then "Bearish" else "Bullish" in
  let market_summary :=
    "Validating " +:+ str_of_nat (length signals)
    +:+ " signals. Market appears lean towards " +:+ market_state +:+ " sentiment." in
  (analyzed, market_summary).

(** The keyword match of both paths: [set(signal_keywords) &
    set(user_watchlist)] on the lower-cased lists, as a function of the
    signal's keywords and the user's watchlist as stored. *)
Definition matched_keywords (keywords watchlist : list string) : gset string :=
  list_to_set (PyStr.lower <$> keywords) ∩ list_to_set (PyStr.lower <$> watchlist).

(** Truthiness of a set. *)
Definition nonempty (X : gset string) : bool := bool_decide (X ≠ ∅).

(** *** The on-demand path *)

Definition urgency_emoji (u : Urgency) : string :=
  match u with
  | critical => "🔴"
  | high => "🟠"
  | medium => "🟡"
  | low => "🟢"
  end.

Definition trigger_message (signal : Analyzed) (matched : gset string) : string :=
  let urgency := urgency_str (a_urgency signal) in
  "🚨 *ALERT: " +:+ PyStr.upper urgency +:+ " URGENCY*" +:+ nl +:+ nl
  +:+ urgency_emoji (a_urgency signal) +:+ " Urgency: " +:+ PyStr.capitalize urgency +:+ nl
  +:+ "📰 *" +:+ sig_headline (a_signal signal) +:+ "*" +:+ nl +:+ nl
  +:+ "📊 Source: " +:+ sig_source (a_signal signal) +:+ nl
  +:+ "💹 Sentiment: " +:+ sentiment_str (a_sentiment signal)
  +:+ " (" +:+ format_2f (a_sentiment_score signal) +:+ ")" +:+ nl
  +:+ "🔑 Matched: " +:+ PyStr.join ", " (set_order matched) +:+ nl +:+ nl
  +:+ "🤖 *AI Analysis:*" +:+ nl +:+ "_" +:+ a_ai_analysis signal +:+ "_" +:+ nl +:+ nl
  +:+ "💡 *Recommendation:* " +:+ a_recommendation signal.

(** The filter at the top of the signal loop of [trigger_check]: the signal
    is processed unless [sentiment != "Negative" and urgency not in
    ["critical", "high"]]. *)
Definition processed (signal : Analyzed) : bool :=
  negb (negb (bool_decide (a_sentiment signal = Negative))
        && negb (bool_decide (a_urgency signal = critical)
                 || bool_decide (a_urgency signal = high))).

(** The body of the user loop of [trigger_check] for one user. *)
Definition trigger_user (signal : Analyzed) (signal_keywords : list string)
    (username : string) (user_data : UserData)
    (alerts_sent : nat) (matches_found : list MatchRecord)
    : M W (nat * list MatchRecord) :=
  let user_watchlist := PyStr.lower <$> u_watchlist user_data in
  let matched : gset string := list_to_set signal_keywords ∩ list_to_set user_watchlist in
  if nonempty matched then
    let alert_message := trigger_message signal matched in
    let chat_id := u_chat_id user_data in
    do alerts_sent <-
      (if truthy chat_id then
         do success <- send_telegram_alert (default "" chat_id) alert_message;
         ret (if success then S alerts_sent else alerts_sent)
       else ret alerts_sent);
    ret (alerts_sent,
         matches_found ++ [mkMatch username (sig_id (a_signal signal))
                             (sig_headline (a_signal signal)) (set_order matched)
                             (a_sentiment signal) (a_urgency signal)
                             (a_ai_analysis signal)])
  else ret (alerts_sent, matches_found).

(** [for username, user_data in stored_data["users"].items()] *)
Fixpoint trigger_users (signal : Analyzed) (signal_keywords : list string)
    (users : list (string * UserData))
    (alerts_sent : nat) (matches_found : list MatchRecord)
    : M W (nat * list MatchRecord) :=
  match users with
  | [] => ret (alerts_sent, matches_found)
  | (username, user_data) :: rest =>
      do acc <- trigger_user signal signal_keywords username user_data
                  alerts_sent matches_found;
      trigger_users signal signal_keywords rest acc.1 acc.2
  end.

(** [for signal in analyzed_signals] *)
Fixpoint trigger_signals (analyzed_signals : list Analyzed)
    (users : list (string * UserData))
    (alerts_sent : nat) (matches_found : list MatchRecord)
    : M W (nat * list MatchRecord) :=
  match analyzed_signals with
  | [] => ret (alerts_sent, matches_found)
  | signal :: rest =>
      if negb (processed signal) then
        trigger_signals rest users alerts_sent matches_found
      else
        let signal_keywords := PyStr.lower <$> sig_keywords (a_signal signal) in
        do acc <- trigger_users signal signal_keywords users alerts_sent matches_found;
        trigger_signals rest users acc.1 acc.2
  end.

(** [trigger_check()]; [None] when [load_data] raises, which the route does
    not handle. *)
Definition trigger_check : M W (option TriggerResult) :=
  do stored_data <- lift_world load_data;
  match stored_data with
  | None => ret None
  | Some users =>
      do real_signals <- fetch_all_signals;
      let '(analyzed_signals, market_summary) := analyze_signals_with_llm real_signals in
      do acc <- trigger_signals analyzed_signals users 0 [];
      ret (Some (mkResult true acc.1 (length acc.2) market_summary acc.2))
  end.

(** *** The scheduled path *)

Definition bearish_keywords : list string :=
  ["crash"; "fall"; "drop"; "plunge"; "loss"; "sell-off"; "collapse"].

(** [any(kw in headline for kw in bearish_keywords)] *)
Definition is_bearish (headline : string) : bool :=
  existsb (fun kw => PyStr.contains kw headline) bearish_keywords.

(** [list(matched_keywords)[0]]; the set is not empty where this is used. *)
Definition first_of (X : gset string) : string := hd "" (set_order X).

Definition scheduled_message (signal : Signal) (topic : string) : string :=
  "🚨 *AUTO-ALERT*" +:+ nl +:+ nl
  +:+ "📰 *" +:+ sig_headline signal +:+ "*" +:+ nl +:+ nl
  +:+ "📊 Source: " +:+ sig_source signal +:+ nl
  +:+ "🔑 Topic: " +:+ topic +:+ nl +:+ nl
  +:+ "💡 Monitor this closely and consider your positions.".

(** [sent_alert_cache[username].get(topic, 0)]; the entry of [username]
    exists, the user loop creates it first. *)
Definition last_sent (c : gmap string (gmap string Q)) (username topic : string) : Q :=
  default 0%Q ((c !!! username) !! topic).

(** [sent_alert_cache[username][topic] = current_time] *)
Definition record_sent (c : gmap string (gmap string Q)) (username topic : string)
    (current_time : Q) : gmap string (gmap string Q) :=
  <[username := <[topic := current_time]> (c !!! username)]> c.

(** The cooldown test: [current_time - last_sent_time < 14400]. *)
Definition in_cooldown (current_time last_sent_time : Q) : bool :=
  Qlt_bool (current_time - last_sent_time) 14400.

(** The body of the signal loop of [run_scheduled_alert_check] after the cap
    test, for one signal; the accumulator is [(alerts_sent,
    user_alerts_this_run)]. *)
Definition scheduled_signal (username : string) (user_data : UserData)
    (user_watchlist : list string) (current_time : Q) (signal : Signal)
    (alerts_sent user_alerts_this_run : nat) : M W (nat * nat) :=
  let headline := PyStr.lower (sig_headline signal) in
  if negb (is_bearish headline) then ret (alerts_sent, user_alerts_this_run)
  else
    let signal_keywords := PyStr.lower <$> sig_keywords signal in
    let matched : gset string := list_to_set signal_keywords ∩ list_to_set user_watchlist in
    if negb (nonempty matched) then ret (alerts_sent, user_alerts_this_run)
    else
      let topic := first_of matched in
      do cache <- get_cache;
      let last_sent_time := last_sent cache username topic in
      if in_cooldown current_time last_sent_time then ret (alerts_sent, user_alerts_this_run)
      else
        let alert_message := scheduled_message signal topic in
        let chat_id := u_chat_id user_data in
        if truthy chat_id then
          do success <- send_telegram_alert (default "" chat_id) alert_message;
          if success then
            exec log_dispatch (mkDispatch username (sig_id signal) topic);
            do cache <- get_cache;
            exec set_cache (record_sent cache username topic current_time);
            ret (S alerts_sent, S user_alerts_this_run)
          else ret (alerts_sent, user_alerts_this_run)
        else ret (alerts_sent, user_alerts_this_run).

(** [for signal in real_signals], with its [break] once the user has two
    alerts in this run. *)
Fixpoint scheduled_signals (username : string) (user_data : UserData)
    (user_watchlist : list string) (current_time : Q) (real_signals : list Signal)
    (alerts_sent user_alerts_this_run : nat) : M W (nat * nat) :=
  match real_signals with
  | [] => ret (alerts_sent, user_alerts_this_run)
  | signal :: rest =>
      if 2 <=? user_alerts_this_run then ret (alerts_sent, user_alerts_this_run)
      else
        do acc <- scheduled_signal username user_data user_watchlist current_time
                    signal alerts_sent user_alerts_this_run;
        scheduled_signals username user_data user_watchlist current_time rest acc.1 acc.2
  end.

(** The body of the user loop: reset the per-run counter, create the user's
    cache entry if it is missing, lower-case the watchlist, scan the signals. *)
Definition scheduled_user (current_time : Q) (real_signals : list Signal)
    (username : string) (user_data : UserData) (alerts_sent : nat) : M W nat :=
  let user_alerts_this_run := 0 in
  do cache <- get_cache;
  exec (match cache !! username with
        | None => set_cache (<[username := ∅]> cache)
        | Some _ => ret tt
        end);
  let user_watchlist := PyStr.lower <$> u_watchlist user_data in
  do acc <- scheduled_signals username user_data user_watchlist current_time
              real_signals alerts_sent user_alerts_this_run;
  ret acc.1.

(** [for username, user_data in stored_data["users"].items()] *)
Fixpoint scheduled_users (current_time : Q) (real_signals : list Signal)
    (users : list (string * UserData)) (alerts_sent : nat) : M W nat :=
  match users with
  | [] => ret alerts_sent
  | (username, user_data) :: rest =>
      do alerts_sent <- scheduled_user current_time real_signals username user_data alerts_sent;
      scheduled_users current_time real_signals rest alerts_sent
  end.

(** [run_scheduled_alert_check()] *)
Definition run_scheduled_alert_check : M W RunOutcome :=
  do stored_data <- lift_world load_data;
  match stored_data with
  | None => ret Failed
  | Some users =>
      do current_time <- lift_world time_time;
      match users with
      | [] => ret Skipped
      | _ :: _ =>
          do real_signals <- fetch_all_signals;
          do alerts_sent <- scheduled_users current_time real_signals users 0;
          ret (Completed alerts_sent)
      end
  end.

(** **** Reference definitions for the statements below *)

(** The part of the body of the signal loop from the alert message on: what
    the scheduled path does with a signal that passed the bearish test, the
    keyword match and the cooldown test. *)
Definition scheduled_send (username : string) (user_data : UserData) (current_time : Q)
    (signal : Signal) (topic : string) (alerts_sent user_alerts_this_run : nat)
    : M W (nat * nat) :=
  if truthy (u_chat_id user_data) then
    do success <- send_telegram_alert (default "" (u_chat_id user_data))
                    (scheduled_message signal topic);
    if success then
      exec log_dispatch (mkDispatch username (sig_id signal) topic);
      do cache <- get_cache;
      exec set_cache (record_sent cache username topic current_time);
      ret (S alerts_sent, S user_alerts_this_run)
    else ret (alerts_sent, user_alerts_this_run)
  else ret (alerts_sent, user_alerts_this_run).



(** A (signal, user) pair of the on-demand path is a match when the signal
    passes the filter and shares a keyword with the user's watchlist. *)
Definition is_match (signal : Analyzed) (user_data : UserData) : bool :=
  processed signal
  && nonempty (matched_keywords (sig_keywords (a_signal signal)) (u_watchlist user_data)).

(** The matches of a scan, in the order of the two loops. *)
Definition matching_pairs (analyzed_signals : list Analyzed)
    (users : list (string * UserData)) : list (Analyzed * (string * UserData)) :=
  signal ← analyzed_signals;
  user ← users;
  if is_match signal user.2 then [(signal, user)] else [].

End Engine.

(** The environment [E] with another sentiment scorer, rounding and number
    format. *)
Definition with_classifier {W} (E : Externals W) (scorer : string -> Q)
    (rnd : Q -> Q) (fmt : Q -> string) : Externals W := {|
  polarity_compound := scorer;
  round3 := rnd;
  format_2f := fmt;
  TELEGRAM_BOT_TOKEN := @TELEGRAM_BOT_TOKEN W E;
  requests_post := @requests_post W E;
  fetch_reddit_signals := @fetch_reddit_signals W E;
  fetch_yahoo_signals := @fetch_yahoo_signals W E;
  fetch_moneycontrol_signals := @fetch_moneycontrol_signals W E;
  load_data := @load_data W E;
  time_time := @time_time W E;
  set_order := @set_order W E;
  set_order_perm := @set_order_perm W E
|}.

(** The alerts of [ds] wrote the ledger entry of [(u, t)]. *)
Definition wrote (ds : list Dispatch) (u t : string) : Prop :=
  Exists (fun d => d_user d = u /\ d_topic d = t) ds.

#[global] Instance wrote_dec ds u t : Decision (wrote ds u t).
Proof. unfold wrote. apply _. Defined.

(** What a stretch of the scheduled path did between the states [s] and
    [s']: it counted the alerts [ds] and called the transport as in [evs];
    as many alerts were counted as calls succeeded; and the ledger holds the
    time [now] for the pairs of the counted alerts and its old entry for
    every other pair. *)
Definition effect {W} (now : Q) (s s' : St W) (ds : list Dispatch)
    (evs : list SendEvent) : Prop :=
  st_dispatched s' = st_dispatched s ++ ds
  /\ st_sends s' = st_sends s ++ evs
  /\ length ds = count_ok evs
  /\ forall u t, ledger (sent_alert_cache s') u t
                 = if decide (wrote ds u t) then Some now
                   else ledger (sent_alert_cache s) u t.


(** A signal with another content. *)
Definition with_content (content : string) (signal : Signal) : Signal :=
  mkSignal (sig_id signal) (sig_source signal) (sig_headline signal) content
    (sig_keywords signal).

(** ** A concrete environment

    A closed instance of [Externals], used to run the engine on examples: the
    sources return [signals], the user file holds [users], the clock reads
    [now], sets are enumerated in the order of [elements], and the Telegram
    endpoint answers 200 except for the chat ids in [failing], for which it
    answers 500.  The scorer is chosen per example; [score] is a small
    stand-in for VADER. *)
Module Fixture.

Definition score (text : string) : Q :=
  if PyStr.contains "crash" (PyStr.lower text) then (-0.6)%Q
  else if PyStr.contains "fears" (PyStr.lower text) then (-0.3)%Q
  else if PyStr.contains "surge" (PyStr.lower text) then 0.5%Q
  else 0%Q.

Definition env_with (scorer : string -> Q) (signals : list Signal)
    (users : list (string * UserData)) (now : Q) (failing : list string)
    : Externals unit := {|
  polarity_compound := scorer;
  round3 := fun x => x;
  format_2f := fun _ => "0.00";
  TELEGRAM_BOT_TOKEN := Some "token";
  requests_post := fun chat_id _ w =>
    (Some (if bool_decide (chat_id ∈ failing) then 500%Z else 200%Z), w);
  fetch_reddit_signals := fun w => (signals, w);
  fetch_yahoo_signals := fun w => ([], w);
  fetch_moneycontrol_signals := fun w => ([], w);
  load_data := fun w => (Some users, w);
  time_time := fun w => (now, w);
  set_order := elements;
  set_order_perm := fun X => reflexivity (elements X)
|}.

Definition env := env_with score.

(** A headline with a crisis word that a valence scorer rates positive. *)
Definition recovery_signal : Signal :=
  mkSignal (IdStr "s2") "Reuters" "Markets rally strongly after flash crash"
    "Investors cheer a great recovery." ["market"].

Definition three_signals : list Signal := [
  mkSignal (IdStr "s1") "Bloomberg" "Bitcoin crashes 15%" "" ["Bitcoin"; "crypto"];
  mkSignal (IdStr "s2") "CNBC" "Tesla shares drop 8%" "" ["Tesla"];
  mkSignal (IdStr "s3") "Reuters" "Oil prices plunge" "" ["oil"]
].

Definition one_user (chat_id : string) (watchlist : list string)
    : list (string * UserData) :=
  [("user", mkUser (Some chat_id) watchlist)].

Definition init (cache : gmap string (gmap string Q)) : St unit :=
  mkSt tt cache [] [].

Definition bitcoin_signal : Signal :=
  mkSignal (IdStr "s1") "Bloomberg" "Bitcoin crashes 15%" "" ["Bitcoin"; "crypto"].

End Fixture.

(** A second environment, whose world counts the requests made to Telegram:
    the first request is answered 500, every later one 200.  The sources
    return [signals], the user file holds [users], the clock reads [now]. *)
Module Flaky.

Definition env (signals : list Signal) (users : list (string * UserData)) (now : Q)
    : Externals nat := {|
  polarity_compound := Fixture.score;
  round3 := fun x => x;
  format_2f := fun _ => "0.00";
  TELEGRAM_BOT_TOKEN := Some "token";
  requests_post := fun _ _ calls =>
    (Some (if (calls =? 0)%nat then 500%Z else 200%Z), S calls);
  fetch_reddit_signals := fun w => (signals, w);
  fetch_yahoo_signals := fun w => ([], w);
  fetch_moneycontrol_signals := fun w => ([], w);
  load_data := fun w => (Some users, w);
  time_time := fun w => (now, w);
  set_order := elements;
  set_order_perm := fun X => reflexivity (elements X)
|}.

Definition init : St nat := mkSt 0 ∅ [] [].

End Flaky.

(** ** Keyword extraction *)

Definition known_keywords : list string := [
  "Apple"; "AAPL"; "Tesla"; "TSLA"; "Microsoft"; "MSFT"; "Google"; "GOOGL";
  "Amazon"; "AMZN"; "Meta"; "META"; "Netflix"; "NFLX"; "Nvidia"; "NVDA";
  "Bitcoin"; "BTC"; "Ethereum"; "ETH"; "crypto"; "SEC"; "Fed"; "inflation";
  "recession"; "earnings"; "IPO"; "stocks"; "market"; "crash"; "rally";
  "Sensex"; "Nifty"; "RBI"; "rupee"; "banks"; "oil"; "gold"
].

(** The loop of [extract_keywords]: the known keywords whose lower-cased form
    occurs in the lower-cased text, in the order of [known_keywords]. *)
Fixpoint extract_loop (text_lower : string) (keywords found : list string) : list string :=
  match keywords with
  | [] => found
  | keyword :: rest =>
      if PyStr.contains (PyStr.lower keyword) text_lower
      then extract_loop text_lower rest (found ++ [keyword])
      else extract_loop text_lower rest found
  end.

(** [extract_keywords(text)] *)
Definition extract_keywords (text : string) : list string :=
  let text_lower := PyStr.lower text in
  let found := extract_loop text_lower known_keywords [] in
  match found with
  | [] => ["general"]
  | _ :: _ => take 5 found
  end.

(** ** The user file and the two registration endpoints

    The JSON file [data.json] is modelled by what [json.load] makes of it:
    the file does not exist ([None]), it exists but cannot be read as JSON
    ([Unreadable], [load_data] raises), or it holds the dictionary of users,
    in file order.  Writing the file is taken to succeed.  The request
    fields are typed as the API documents them: the username and the keyword
    are JSON strings, the chat id a JSON string or integer; a missing key
    and a JSON [null] are both [None].  The handlers are modelled from the
    value [request.get_json()] returns; a request Flask answers inside
    [get_json()] (no JSON body, another content type, malformed JSON) never
    reaches their code. *)
Module Store.

(** A Python dict with string keys, in insertion order. *)
Fixpoint dict_get {A} (k : string) (d : list (string * A)) : option A :=
  match d with
  | [] => None
  | (k', v) :: rest => if String.eqb k k' then Some v else dict_get k rest
  end.

(** [d[k] = v]: the value is replaced in place, a new key goes last. *)
Fixpoint dict_set {A} (k : string) (v : A) (d : list (string * A)) : list (string * A) :=
  match d with
  | [] => [(k, v)]
  | (k', v') :: rest =>
      if String.eqb k k' then (k', v) :: rest else (k', v') :: dict_set k v rest
  end.

Inductive FileContent :=
  | Unreadable
  | Users (users : list (string * UserData)).

Definition DataFile : Type := option FileContent.

(** [save_data(data)] *)
Definition save_data (data : list (string * UserData)) (file : DataFile) : DataFile :=
  Some (Users data).

(** [load_data()]: a missing file is created with no users; [None] when
    opening or parsing the file raises. *)
Definition load_data (file : DataFile) : option (list (string * UserData)) * DataFile :=
  match file with
  | None =>
      let default_data := [] in
      (Some default_data, save_data default_data file)
  | Some Unreadable => (None, file)
  | Some (Users data) => (Some data, file)
  end.

(** The chat id of a request. *)
Inductive ChatId :=
  | ChatStr (s : string)
  | ChatInt (z : Z).

Definition chat_truthy (c : option ChatId) : bool :=
  match c with
  | Some (ChatStr (String _ _)) => true
  | Some (ChatInt z) => negb (z =? 0)%Z
  | _ => false
  end.

(** [str(chat_id)] *)
Definition str_of_chat (c : ChatId) : string :=
  match c with
  | ChatStr s => s
  | ChatInt z => NilZero.string_of_int (Z.to_int z)
  end.

(** The body of [POST /api/connect]. *)
Record ConnectRequest := mkConnect {
  c_username : option string;
  c_chat_id : option ChatId
}.

(** The body of [POST /api/watchlist]. *)
Record WatchlistRequest := mkWatch {
  w_username : option string;
  w_keyword : option string
}.

(** What the two endpoints answer: an error with its status code, the
    success body of the endpoint (status 200), or no answer of their own
    because the handler raised (Flask then answers 500). *)
Inductive Response :=
  | Error (status : Z) (error : string)
  | Connected (message : string) (user : UserData)
  | Watchlist (message : string) (watchlist : list string)
  | Crash.

(** [connect_telegram()]; [data] is what [request.get_json()] returned,
    [None] when that value is falsy (a JSON [null] or an empty object). *)
Definition connect_telegram (data : option ConnectRequest) (file : DataFile)
    : Response * DataFile :=
  match data with
  | None => (Error 400 "No JSON data provided", file)
  | Some data =>
      let username := c_username data in
      let chat_id := c_chat_id data in
      if negb (truthy username) || negb (chat_truthy chat_id) then
        (Error 400 "Both 'username' and 'chat_id' are required", file)
      else
        let username := default "" username in
        let chat_id := str_of_chat (default (ChatStr "") chat_id) in
        match load_data file with
        | (None, file) => (Crash, file)
        | (Some users, file) =>
            let users :=
              match dict_get username users with
              | None => dict_set username (mkUser (Some chat_id) []) users
              | Some user =>
                  dict_set username (mkUser (Some chat_id) (u_watchlist user)) users
              end in
            let file := save_data users file in
            (Connected ("Telegram connected for user '" +:+ username +:+ "'")
               (default (mkUser None []) (dict_get username users)), file)
        end
  end.

(** [add_to_watchlist()] *)
Definition add_to_watchlist (data : option WatchlistRequest) (file : DataFile)
    : Response * DataFile :=
  match data with
  | None => (Error 400 "No JSON data provided", file)
  | Some data =>
      let username := w_username data in
      let keyword := w_keyword data in
      if negb (truthy username) || negb (truthy keyword) then
        (Error 400 "Both 'username' and 'keyword' are required", file)
      else
        let username := default "" username in
        let keyword := default "" keyword in
        match load_data file with
        | (None, file) => (Crash, file)
        | (Some users, file) =>
            match dict_get username users with
            | None =>
                (Error 404 ("User '" +:+ username
                            +:+ "' not found. Please connect Telegram first."), file)
            | Some user =>
                let watchlist := u_watchlist user in
                let keyword_lower := PyStr.lower keyword in
                if bool_decide (keyword_lower ∉ (PyStr.lower <$> watchlist)) then
                  let users :=
                    dict_set username
                      (mkUser (u_chat_id user) (watchlist ++ [keyword])) users in
                  let file := save_data users file in
                  (Watchlist ("Added '" +:+ keyword +:+ "' to watchlist")
                     (watchlist ++ [keyword]), file)
                else
                  (Watchlist ("'" +:+ keyword +:+ "' already in watchlist") watchlist, file)
            end
        end
  end.

(** The file can be loaded: it is missing or holds users. *)
Definition readable (file : DataFile) : bool :=
  match file with
  | Some Unreadable => false
  | _ => true
  end.

(** The users a later [load_data()] reads (none from a file it cannot
    read). *)
Definition users_of (file : DataFile) : list (string * UserData) :=
  default [] (load_data file).1.

(** A request passes the checks of its endpoint: there is a body and both
    fields are truthy. *)
Definition connect_valid (data : option ConnectRequest) : bool :=
  match data with
  | Some data => truthy (c_username data) && chat_truthy (c_chat_id data)
  | None => false
  end.

Definition watch_valid (data : option WatchlistRequest) : bool :=
  match data with
  | Some data => truthy (w_username data) && truthy (w_keyword data)
  | None => false
  end.

(** One request to one of the two endpoints. *)
Inductive Request :=
  | PostConnect (data : option ConnectRequest)
  | PostWatchlist (data : option WatchlistRequest).

Definition handle (req : Request) (file : DataFile) : Response * DataFile :=
  match req with
  | PostConnect data => connect_telegram data file
  | PostWatchlist data => add_to_watchlist data file
  end.

(** The file after a sequence of requests. *)
Definition serve (reqs : list Request) (file : DataFile) : DataFile :=
  foldl (fun file req => (handle req file).2) file reqs.

(** The shape the endpoints keep the user file in: usernames are distinct
    and no watchlist holds two entries that are equal up to case. *)
Definition store_ok (file : DataFile) : Prop :=
  NoDup (users_of file).*1
  /\ Forall (fun user => NoDup (PyStr.lower <$> u_watchlist user.2)) (users_of file).

End Store.

(** ** Reference definitions for the scheduled path *)

(** The ledger key of an alert. *)
Definition pair_of (d : Dispatch) : string * string := (d_user d, d_topic d).

(** The alerts [ds] were all outside the cooldown window of the ledger [c]
    at the time [now], and no two of them are for the same pair. *)
Definition fresh (now : Q) (c : gmap string (gmap string Q)) (ds : list Dispatch) : Prop :=
  Forall (fun d => in_cooldown now (default 0%Q (ledger c (d_user d) (d_topic d))) = false) ds
  /\ NoDup (pair_of <$> ds).

(** The alert [d] went to [username] about one of [signals]: a signal with a
    bearish headline that shares the alert's topic with the user's watchlist,
    and the user has a chat id. *)
Definition justified (username : string) (user_data : UserData) (signals : list Signal)
    (d : Dispatch) : Prop :=
  exists signal,
    signal ∈ signals
    /\ d_user d = username
    /\ d_signal_id d = sig_id signal
    /\ d_topic d ∈ matched_keywords (sig_keywords signal) (u_watchlist user_data)
    /\ is_bearish (PyStr.lower (sig_headline signal)) = true
    /\ truthy (u_chat_id user_data) = true.

(** The state [s] with another cache. *)
Definition with_cache {W} (c : gmap string (gmap string Q)) (s : St W) : St W :=
  mkSt (st_world s) c (st_sends s) (st_dispatched s).

(** ** Properties *)

(** *** Strings *)

Lemma lower_swap_ascii c : PyStr.lower_ascii (PyStr.swap_ascii c) = PyStr.lower_ascii c.
Proof. destruct c as [[] [] [] [] [] [] [] []]; reflexivity. Qed.

Lemma lower_recase_from m i s : PyStr.lower (PyStr.recase_from m i s) = PyStr.lower s.
Proof.
  revert i. induction s as [|c s IH]; intros i; simpl; [reflexivity|].
  rewrite IH. destruct (m i); [rewrite lower_swap_ascii|]; reflexivity.
Qed.

Lemma lower_recase m s : PyStr.lower (PyStr.recase m s) = PyStr.lower s.
Proof. apply lower_recase_from. Qed.

Lemma str_app_cons c s r : String c s +:+ r = String c (s +:+ r).
Proof. reflexivity. Qed.

Lemma startswith_spec p s : PyStr.startswith p s = true <-> exists r, s = p +:+ r.
Proof.
  revert s. induction p as [|a p IH]; intros s; simpl.
  - split; [intros _; exists s; reflexivity | reflexivity].
  - destruct s as [|b s]; [split; [discriminate | intros [r Hr]; discriminate]|].
    destruct (Ascii.eqb_spec a b) as [->|Hne].
    + rewrite IH. split; intros [r Hr]; exists r; rewrite str_app_cons in *; congruence.
    + split; [discriminate | intros [r Hr]; rewrite str_app_cons in Hr; congruence].
Qed.

(** [contains] is Python's substring test. *)
Lemma contains_spec needle hay :
  PyStr.contains needle hay = true <-> exists pre post, hay = pre +:+ needle +:+ post.
Proof.
  induction hay as [|c hay IH]; simpl.
  - rewrite orb_false_r, startswith_spec. split.
    + intros [r Hr]. exists "", r. exact Hr.
    + intros [pre [post H]]. destruct pre; [exists post; exact H | discriminate].
  - rewrite orb_true_iff, startswith_spec, IH. split.
    + intros [[r Hr] | [pre [post H]]].
      * exists "", r. exact Hr.
      * exists (String c pre), post. rewrite str_app_cons. congruence.
    + intros [pre [post H]]. destruct pre as [|c' pre].
      * left. exists post. exact H.
      * right. exists pre, post. rewrite str_app_cons in H. congruence.
Qed.

(** *** Comparisons *)

Lemma Qge_bool_iff x y : Qge_bool x y = true <-> (y <= x)%Q.
Proof. apply Qle_bool_iff. Qed.

Lemma Qlt_bool_iff x y : Qlt_bool x y = true <-> (x < y)%Q.
Proof.
  unfold Qlt_bool. rewrite negb_true_iff, <- not_true_iff_false, Qle_bool_iff.
  split; [apply Qnot_le_lt | apply Qlt_not_le].
Qed.

Lemma Qlt_bool_false x y : Qlt_bool x y = false <-> (y <= x)%Q.
Proof. unfold Qlt_bool. rewrite negb_false_iff. apply Qle_bool_iff. Qed.

Lemma nonempty_iff (X : gset string) : nonempty X = true <-> X <> ∅.
Proof. unfold nonempty. apply bool_decide_eq_true. Qed.


Section Classification.
Context {W : Type} `{E : Externals W}.

(** C5: [analyze_sentiment] returns the compound score of the text with the
    label Positive exactly when the score is at least 0.05, Negative exactly
    when it is at most -0.05, and Neutral exactly when it lies strictly
    between; both boundary values belong to the outer labels. *)
Theorem analyze_sentiment_thresholds (text : string) :
  (analyze_sentiment text).2 = polarity_compound text
  /\ ((analyze_sentiment text).1 = Positive <-> (0.05 <= polarity_compound text)%Q)
  /\ ((analyze_sentiment text).1 = Negative <-> (polarity_compound text <= -0.05)%Q)
  /\ ((analyze_sentiment text).1 = Neutral
      <-> (-0.05 < polarity_compound text)%Q /\ (polarity_compound text < 0.05)%Q).
Proof.
  unfold analyze_sentiment; simpl. set (c := polarity_compound text).
  split; [reflexivity|].
  destruct (Qge_bool c 0.05) eqn:Hp.
  - apply Qge_bool_iff in Hp.
    repeat split; try discriminate; try (intros; exact Hp); intros; exfalso; lra.
  - assert (c < 0.05)%Q as Hlt.
    { apply Qnot_le_lt. intros H. apply Qge_bool_iff in H. congruence. }
    destruct (Qle_bool c (-0.05)) eqn:Hn.
    + apply Qle_bool_iff in Hn.
      repeat split; try discriminate; try (intros; exact Hn); intros; exfalso; lra.
    + assert (-0.05 < c)%Q as Hgt.
      { apply Qnot_le_lt. intros H. apply Qle_bool_iff in H. congruence. }
      repeat split; try discriminate; try assumption; intros; exfalso; lra.
Qed.

Lemma analyze_loop_list signals analyzed b u :
  (analyze_loop signals analyzed b u).1.1 = analyzed ++ (analyze_signal <$> signals).
Proof.
  revert analyzed b u. induction signals as [|x l IH]; intros analyzed b u; simpl.
  - rewrite app_nil_r. reflexivity.
  - rewrite IH, <- app_assoc. reflexivity.
Qed.

(** The list [analyze_signals_with_llm] returns is the classification of each
    signal, in order. *)
Lemma analyze_signals_list signals :
  (analyze_signals_with_llm signals).1 = analyze_signal <$> signals.
Proof.
  unfold analyze_signals_with_llm.
  pose proof (analyze_loop_list signals [] 0 0) as H.
  destruct (analyze_loop signals [] 0 0) as [[analyzed b] u]. exact H.
Qed.

(** The urgency of one classified signal, case by case. *)
Lemma analyze_signal_urgency signal :
  a_urgency (analyze_signal signal) =
    match a_sentiment (analyze_signal signal) with
    | Negative =>
        if has_crisis_lexeme signal then critical
        else if Qlt_bool (polarity_compound (full_text signal)) (-0.5) then high
        else low
    | _ => low
    end.
Proof.
  unfold analyze_signal, has_crisis_lexeme, analyze_sentiment. simpl.
  destruct (Qge_bool _ _); [reflexivity|].
  destruct (Qle_bool _ _); [|reflexivity]. simpl.
  destruct (_ || _); reflexivity.
Qed.

(** C1 (as the code has it): the crisis words ["crash"] and ["plunge"]
    raise the urgency to critical only for a signal labelled Negative: the
    urgency of a classified signal is critical exactly when its label is
    Negative and the lower-cased headline-plus-content contains one of the
    two words, and a signal labelled Positive or Neutral has urgency low
    whatever its text contains. *)
Theorem crisis_lexeme_urgency (signals : list Signal) :
  Forall (fun a =>
            (a_urgency a = critical
             <-> a_sentiment a = Negative /\ has_crisis_lexeme (a_signal a) = true)
            /\ (a_sentiment a <> Negative -> a_urgency a = low))
         (analyze_signals_with_llm signals).1.
Proof.
  rewrite analyze_signals_list. apply Forall_fmap, Forall_forall.
  intros signal _. unfold compose. cbv beta. rewrite analyze_signal_urgency.
  change (a_signal (analyze_signal signal)) with signal.
  destruct (a_sentiment (analyze_signal signal)); split;
    try (split; [discriminate | intros [? _]; discriminate]);
    try reflexivity; try (intros H; exfalso; apply H; reflexivity).
  destruct (has_crisis_lexeme signal).
  - split; [intros _; split; reflexivity | reflexivity].
  - split; [|intros [_ ?]; discriminate].
    destruct (Qlt_bool _ _); discriminate.
Qed.

(** C10: every signal the classification step produces has urgency above
    low only under the label Negative, so the filter of the on-demand path
    (label Negative, or urgency high or critical) lets through exactly the
    signals labelled Negative. *)
Theorem processed_iff_negative (signals : list Signal) :
  Forall (fun a =>
            (a_urgency a = high \/ a_urgency a = critical -> a_sentiment a = Negative)
            /\ (processed a = true <-> a_sentiment a = Negative))
         (analyze_signals_with_llm signals).1.
Proof.
  rewrite analyze_signals_list. apply Forall_fmap, Forall_forall.
  intros signal _. unfold compose. cbv beta.
  assert (a_urgency (analyze_signal signal) = high
          \/ a_urgency (analyze_signal signal) = critical
          -> a_sentiment (analyze_signal signal) = Negative) as Hup.
  { rewrite analyze_signal_urgency.
    destruct (a_sentiment (analyze_signal signal)); intros [?|?];
      try discriminate; reflexivity. }
  split; [exact Hup|]. unfold processed.
  rewrite negb_true_iff, andb_false_iff, !negb_false_iff, orb_true_iff,
    !bool_decide_eq_true.
  split; [intros [?|[?|?]]; auto | auto].
Qed.

End Classification.

(** C1, as stated, fails: a signal whose text contains ["crash"] but which
    the scorer rates positive keeps urgency low. *)
Lemma crisis_lexeme_positive_stays_low :
  has_crisis_lexeme Fixture.recovery_signal = true
  /\ a_sentiment <$> (@analyze_signals_with_llm unit
        (Fixture.env_with (fun _ => 0.6%Q) [] [] 0%Q []) [Fixture.recovery_signal]).1
     = [Positive]
  /\ a_urgency <$> (@analyze_signals_with_llm unit
        (Fixture.env_with (fun _ => 0.6%Q) [] [] 0%Q []) [Fixture.recovery_signal]).1
     = [low]
  /\ low <> critical.
Proof. repeat split; [vm_compute; reflexivity.. | discriminate]. Qed.

(** *** The keyword matcher *)


Section Matcher.
Context {W : Type} `{E : Externals W}.


End Matcher.

(** *** The ledger and the histories *)

Lemma last_sent_ledger (c : gmap string (gmap string Q)) u t :
  last_sent c u t = default 0%Q (ledger c u t).
Proof.
  unfold last_sent, ledger. rewrite lookup_total_alt.
  destruct (c !! u) as [m|]; simpl; [reflexivity|]. rewrite lookup_empty. reflexivity.
Qed.

Lemma ledger_record_sent (c : gmap string (gmap string Q)) u t now u' t' :
  ledger (record_sent c u t now) u' t'
  = if decide (u' = u /\ t' = t) then Some now else ledger c u' t'.
Proof.
  unfold ledger, record_sent. destruct (decide (u' = u)) as [->|Hu].
  - rewrite lookup_insert_eq. simpl. destruct (decide (t' = t)) as [->|Ht].
    + rewrite lookup_insert_eq. rewrite decide_True by auto. reflexivity.
    + rewrite lookup_insert_ne by auto. rewrite decide_False by (intros [_ ?]; auto).
      rewrite lookup_total_alt. destruct (c !! u); simpl; [reflexivity|apply lookup_empty].
  - rewrite lookup_insert_ne by auto. rewrite decide_False by (intros [? _]; auto). reflexivity.
Qed.

Lemma ledger_init (c : gmap string (gmap string Q)) u u' t' :
  c !! u = None -> ledger (<[u := ∅]> c) u' t' = ledger c u' t'.
Proof.
  intros Hu. unfold ledger. destruct (decide (u' = u)) as [->|Hne].
  - rewrite lookup_insert_eq, Hu. simpl. apply lookup_empty.
  - rewrite lookup_insert_ne by auto. reflexivity.
Qed.

Lemma since_app {A} (l x : list A) : since l (l ++ x) = x.
Proof. unfold since. apply drop_app_length. Qed.

Lemma count_ok_app l1 l2 : count_ok (l1 ++ l2) = count_ok l1 + count_ok l2.
Proof. unfold count_ok. rewrite filter_app, length_app. reflexivity. Qed.

Lemma wrote_app ds1 ds2 u t : wrote (ds1 ++ ds2) u t <-> wrote ds1 u t \/ wrote ds2 u t.
Proof. apply Exists_app. Qed.

(** *** The scheduled path *)

Section Scheduled.
Context {W : Type} `{E : Externals W}.

Lemma send_telegram_alert_spec chat_id message (s : St W) :
  exists w,
    send_telegram_alert chat_id message s
    = ((send_telegram_alert chat_id message s).1,
       mkSt w (sent_alert_cache s)
         (st_sends s ++ [mkSend chat_id message (send_telegram_alert chat_id message s).1])
         (st_dispatched s)).
Proof.
  unfold send_telegram_alert, bind, log_send, ret, lift_world.
  destruct (negb (truthy TELEGRAM_BOT_TOKEN)); simpl.
  - eexists. reflexivity.
  - destruct (requests_post chat_id message (st_world s)) as [r w]. simpl.
    eexists. reflexivity.
Qed.

Lemma send_telegram_alert_state chat_id message (s : St W) ok s1 :
  send_telegram_alert chat_id message s = (ok, s1) ->
  sent_alert_cache s1 = sent_alert_cache s
  /\ st_sends s1 = st_sends s ++ [mkSend chat_id message ok]
  /\ st_dispatched s1 = st_dispatched s.
Proof.
  destruct (send_telegram_alert_spec chat_id message s) as [w Hs].
  rewrite Hs. intros [= <- <-]. split_and!; reflexivity.
Qed.

Lemma scheduled_signal_cases username user_data current_time signal n k (s : St W) :
  scheduled_signal username user_data (PyStr.lower <$> u_watchlist user_data)
    current_time signal n k s
  = if is_bearish (PyStr.lower (sig_headline signal))
       && nonempty (matched_keywords (sig_keywords signal) (u_watchlist user_data))
       && negb (in_cooldown current_time
                  (last_sent (sent_alert_cache s) username
                     (first_of (matched_keywords (sig_keywords signal) (u_watchlist user_data)))))
    then scheduled_send username user_data current_time signal
           (first_of (matched_keywords (sig_keywords signal) (u_watchlist user_data))) n k s
    else ((n, k), s).
Proof.
  unfold scheduled_signal, scheduled_send, matched_keywords.
  destruct (is_bearish _); [|reflexivity].
  destruct (nonempty _); [|reflexivity]. simpl.
  unfold bind at 1. unfold get_cache at 1.
  destruct (in_cooldown _ _); reflexivity.
Qed.
Lemma effect_refl now (s : St W) : effect now s s [] [].
Proof.
  unfold effect. rewrite !app_nil_r. repeat split; reflexivity.
Qed.

Lemma effect_trans now (s s' s'' : St W) ds1 evs1 ds2 evs2 :
  effect now s s' ds1 evs1 -> effect now s' s'' ds2 evs2 ->
  effect now s s'' (ds1 ++ ds2) (evs1 ++ evs2).
Proof.
  intros (Hd1 & He1 & Hc1 & Hl1) (Hd2 & He2 & Hc2 & Hl2).
  unfold effect. rewrite Hd2, Hd1, He2, He1, !app_assoc, length_app, count_ok_app.
  repeat split; try reflexivity; [lia|].
  intros u t. rewrite Hl2, Hl1.
  destruct (decide (wrote ds2 u t)) as [H2|H2].
  - rewrite decide_True by (apply wrote_app; auto). reflexivity.
  - destruct (decide (wrote ds1 u t)) as [H1|H1].
    + rewrite decide_True by (apply wrote_app; auto). reflexivity.
    + rewrite decide_False by (rewrite wrote_app; tauto). reflexivity.
Qed.

Lemma scheduled_send_effect username user_data now signal topic n k (s : St W) :
  exists ds evs s',
    scheduled_send username user_data now signal topic n k s
      = ((n + length ds, k + length ds), s')
    /\ effect now s s' ds evs
    /\ (ds = [] \/ ds = [mkDispatch username (sig_id signal) topic])
    /\ length evs <= 1.
Proof.
  unfold scheduled_send. destruct (truthy (u_chat_id user_data)).
  - unfold bind at 1.
    destruct (send_telegram_alert_spec (default "" (u_chat_id user_data))
                (scheduled_message signal topic) s) as [w Hs].
    rewrite Hs. clear Hs.
    set (ev := mkSend _ _).
    destruct (send_telegram_alert _ _ s).1.
    + exists [mkDispatch username (sig_id signal) topic], [ev true]. eexists.
      cbn. rewrite !Nat.add_1_r. split_and!; [reflexivity| |right; reflexivity|lia].
      unfold effect; cbn. split_and!; [reflexivity..|].
      intros u t. rewrite ledger_record_sent. unfold wrote.
      destruct (decide (u = username /\ t = topic)) as [[-> ->]|Hne].
      * rewrite decide_True by (apply Exists_cons_hd; auto). reflexivity.
      * rewrite decide_False; [reflexivity|].
        intros H. apply Exists_cons in H as [[? ?]|H]; [simpl in *; auto|].
        apply Exists_nil in H. exact H.
    + exists [], [ev false]. eexists.
      cbn. rewrite !Nat.add_0_r. split_and!; [reflexivity| |left; reflexivity|lia].
      unfold effect; cbn. rewrite app_nil_r. split_and!; reflexivity.
  - exists [], [], s. cbn. rewrite !Nat.add_0_r.
    split_and!; [reflexivity | apply effect_refl | left; reflexivity | lia].
Qed.

Lemma scheduled_signal_effect username user_data now signal n k (s : St W) :
  exists ds evs s',
    scheduled_signal username user_data (PyStr.lower <$> u_watchlist user_data)
      now signal n k s = ((n + length ds, k + length ds), s')
    /\ effect now s s' ds evs
    /\ (ds = [] \/ exists topic, ds = [mkDispatch username (sig_id signal) topic])
    /\ length evs <= 1.
Proof.
  rewrite scheduled_signal_cases.
  destruct (_ && _).
  - destruct (scheduled_send_effect username user_data now signal
      (first_of (matched_keywords (sig_keywords signal) (u_watchlist user_data))) n k s)
      as (ds & evs & s' & Hr & He & Hd & Hl).
    exists ds, evs, s'. split_and!; try assumption.
    destruct Hd; [left|right]; eauto.
  - exists [], [], s. cbn. rewrite !Nat.add_0_r.
    split_and!; [reflexivity | apply effect_refl | left; reflexivity | lia].
Qed.


Lemma scheduled_signals_effect username user_data now signals n k (s : St W) :
  exists ds evs s',
    scheduled_signals username user_data (PyStr.lower <$> u_watchlist user_data)
      now signals n k s = ((n + length ds, k + length ds), s')
    /\ effect now s s' ds evs
    /\ Forall (fun d => d_user d = username) ds
    /\ (d_signal_id <$> ds) `sublist_of` (sig_id <$> signals)
    /\ k + length ds <= k `max` 2
    /\ length evs <= length signals.
Proof.
  revert n k s. induction signals as [|signal rest IH]; intros n k s.
  - exists [], [], s. cbn. rewrite !Nat.add_0_r.
    split_and!; [reflexivity | apply effect_refl | constructor | constructor | lia | lia].
  - cbn [scheduled_signals]. destruct (2 <=? k) eqn:Hk.
    + exists [], [], s. cbn. rewrite !Nat.add_0_r.
      split_and!; [reflexivity | apply effect_refl | constructor | apply sublist_nil_l | lia | lia].
    + apply Nat.leb_gt in Hk. unfold bind.
      destruct (scheduled_signal_effect username user_data now signal n k s)
        as (ds1 & evs1 & s1 & Hr1 & He1 & Hd1 & Hl1).
      rewrite Hr1. cbn [fst snd].
      destruct (IH (n + length ds1) (k + length ds1) s1)
        as (ds2 & evs2 & s2 & Hr2 & He2 & Hu2 & Hs2 & Hk2 & Hl2).
      exists (ds1 ++ ds2), (evs1 ++ evs2), s2.
      rewrite Hr2, !length_app, !Nat.add_assoc.
      assert (length ds1 <= 1) as Hlen1.
      { destruct Hd1 as [->|[topic ->]]; simpl; lia. }
      split_and!.
      * reflexivity.
      * eapply effect_trans; eassumption.
      * apply Forall_app. split; [|assumption].
        destruct Hd1 as [->|[topic ->]]; repeat constructor.
      * rewrite fmap_app. destruct Hd1 as [->|[topic ->]]; cbn.
        -- apply sublist_cons. assumption.
        -- apply sublist_skip. assumption.
      * lia.
      * cbn. lia.
Qed.




Lemma scheduled_user_effect now signals username user_data n (s : St W) :
  exists ds evs s',
    scheduled_user now signals username user_data n s = (n + length ds, s')
    /\ effect now s s' ds evs
    /\ Forall (fun d => d_user d = username) ds
    /\ (d_signal_id <$> ds) `sublist_of` (sig_id <$> signals)
    /\ length ds <= 2
    /\ length evs <= length signals.
Proof.
  unfold scheduled_user. unfold bind at 1. unfold get_cache. unfold bind at 1.
  set (s0 := (match sent_alert_cache s !! username with
              | Some _ => ret tt
              | None => set_cache (<[username:=∅]> (sent_alert_cache s))
              end s).2).
  assert (effect now s s0 [] []) as He0.
  { subst s0. destruct (sent_alert_cache s !! username) eqn:Hu; [apply effect_refl|].
    unfold effect; cbn. rewrite !app_nil_r. split_and!; try reflexivity.
    intros u t. apply ledger_init. assumption. }
  replace (match sent_alert_cache s !! username with
           | Some _ => ret tt
           | None => set_cache (<[username:=∅]> (sent_alert_cache s))
           end s) with (tt, s0)
    by (subst s0; destruct (sent_alert_cache s !! username); reflexivity).
  unfold bind.
  destruct (scheduled_signals_effect username user_data now signals n 0 s0)
    as (ds & evs & s' & Hr & He & Hu & Hs & Hk & Hl).
  rewrite Hr. cbn [fst snd ret].
  exists ds, evs, s'. split_and!; try assumption; try reflexivity; try (cbn in Hk; lia).
  apply (effect_trans now s s0 s' [] [] ds evs); assumption.
Qed.

Lemma dispatches_of_app u ds1 ds2 :
  dispatches_of u (ds1 ++ ds2) = dispatches_of u ds1 ++ dispatches_of u ds2.
Proof. apply filter_app. Qed.

Lemma dispatches_of_none u ds :
  Forall (fun d => d_user d <> u) ds -> dispatches_of u ds = [].
Proof.
  unfold dispatches_of. induction 1 as [|d ds Hd _ IH]; [reflexivity|].
  rewrite filter_cons_False by assumption. exact IH.
Qed.

Lemma scheduled_users_effect now signals users n (s : St W) :
  exists ds evs s',
    scheduled_users now signals users n s = (n + length ds, s')
    /\ effect now s s' ds evs
    /\ Forall (fun d => d_user d ∈ users.*1) ds
    /\ (NoDup users.*1 -> forall u, length (dispatches_of u ds) <= 2)
    /\ length evs <= length users * length signals.
Proof.
  revert n s. induction users as [|[username user_data] rest IH]; intros n s.
  - exists [], [], s. cbn. rewrite Nat.add_0_r.
    split_and!; [reflexivity | apply effect_refl | constructor | intros; cbn; lia | lia].
  - cbn [scheduled_users]. unfold bind.
    destruct (scheduled_user_effect now signals username user_data n s)
      as (ds1 & evs1 & s1 & Hr1 & He1 & Hu1 & _ & Hk1 & Hl1).
    rewrite Hr1.
    destruct (IH (n + length ds1) s1) as (ds2 & evs2 & s2 & Hr2 & He2 & Hu2 & Hc2 & Hl2).
    exists (ds1 ++ ds2), (evs1 ++ evs2), s2.
    rewrite Hr2, !length_app, Nat.add_assoc. split_and!.
    + reflexivity.
    + eapply effect_trans; eassumption.
    + apply Forall_app. split.
      * eapply Forall_impl; [exact Hu1|]. intros d Hd. cbn in Hd |- *. rewrite Hd. left.
      * eapply Forall_impl; [exact Hu2|]. intros d Hd. cbn in Hd |- *. right. exact Hd.
    + cbn. intros Hnd u. apply NoDup_cons in Hnd as [Hnotin Hnd].
      rewrite dispatches_of_app, length_app.
      destruct (decide (u = username)) as [->|Hne].
      * rewrite (dispatches_of_none username ds2).
        -- cbn. rewrite Nat.add_0_r.
           etrans; [apply length_filter|]. exact Hk1.
        -- eapply Forall_impl; [exact Hu2|]. intros d Hd Heq. cbn in Hd.
           rewrite Heq in Hd. contradiction.
      * rewrite (dispatches_of_none u ds1).
        -- cbn. apply Hc2. assumption.
        -- eapply Forall_impl; [exact Hu1|]. intros d Hd Heq. cbn in Hd. congruence.
    + cbn. lia.
Qed.

Lemma fetch_all_signals_spec (s : St W) :
  exists w,
    fetch_all_signals s
    = ((fetch_all_signals s).1,
       mkSt w (sent_alert_cache s) (st_sends s) (st_dispatched s)).
Proof.
  unfold fetch_all_signals, bind, lift_world. cbn.
  destruct (fetch_reddit_signals (st_world s)) as [r w1]. cbn.
  destruct (fetch_yahoo_signals w1) as [y w2]. cbn.
  destruct (fetch_moneycontrol_signals w2) as [m w3]. cbn.
  destruct (r ++ y ++ m); eexists; reflexivity.
Qed.

Lemma fetch_all_signals_nonempty (s : St W) : (fetch_all_signals s).1 <> [].
Proof.
  unfold fetch_all_signals, bind, lift_world. cbn.
  destruct (fetch_reddit_signals (st_world s)) as [r w1]. cbn.
  destruct (fetch_yahoo_signals w1) as [y w2]. cbn.
  destruct (fetch_moneycontrol_signals w2) as [m w3]. cbn.
  destruct (r ++ y ++ m); discriminate.
Qed.

(** The cooldown test in full, for any reading of the clock: for a bearish
    signal that matches the user's watchlist, with [topic] the keyword
    chosen for the ledger, the scheduled path goes on to the send exactly
    when the test passes; a missing record is read as time 0. *)
Lemma cooldown_gate username user_data now signal n k (s : St W) :
  is_bearish (PyStr.lower (sig_headline signal)) = true ->
  nonempty (matched_keywords (sig_keywords signal) (u_watchlist user_data)) = true ->
  let topic := first_of (matched_keywords (sig_keywords signal) (u_watchlist user_data)) in
  let step := scheduled_signal username user_data (PyStr.lower <$> u_watchlist user_data)
                now signal n k s in
  match ledger (sent_alert_cache s) username topic with
  | Some last =>
      ((now - last < 14400)%Q -> step = ((n, k), s))
      /\ ((14400 <= now - last)%Q ->
          step = scheduled_send username user_data now signal topic n k s)
  | None =>
      ((now < 14400)%Q -> step = ((n, k), s))
      /\ ((14400 <= now)%Q ->
          step = scheduled_send username user_data now signal topic n k s)
  end.
Proof.
  intros Hb Hm topic step. subst step. rewrite scheduled_signal_cases, Hb, Hm.
  fold topic. cbn [andb]. rewrite last_sent_ledger. unfold in_cooldown.
  destruct (ledger (sent_alert_cache s) username topic) as [last|]; cbn [default from_option id].
  - split; intros H.
    + apply Qlt_bool_iff in H. rewrite H. reflexivity.
    + apply Qlt_bool_false in H. rewrite H. reflexivity.
  - split; intros H.
    + assert (now - 0 < 14400)%Q as H' by lra.
      apply Qlt_bool_iff in H'. rewrite H'. reflexivity.
    + assert (14400 <= now - 0)%Q as H' by lra.
      apply Qlt_bool_false in H'. rewrite H'. reflexivity.
Qed.

(** C3: on a clock that reads Unix time (at least 14400 seconds, that is
    any time after 04:00 on 1 January 1970), for every (user, topic) pair
    of the scheduled path the alert is suppressed when the run's time minus
    the last recorded time of the pair is strictly less than 14400 seconds,
    and is allowed (the scan goes on to the send) when the pair has no prior
    record or that difference is at least 14400 seconds. *)
Theorem cooldown_window username user_data now signal n k (s : St W) :
  (14400 <= now)%Q ->
  is_bearish (PyStr.lower (sig_headline signal)) = true ->
  nonempty (matched_keywords (sig_keywords signal) (u_watchlist user_data)) = true ->
  let topic := first_of (matched_keywords (sig_keywords signal) (u_watchlist user_data)) in
  let step := scheduled_signal username user_data (PyStr.lower <$> u_watchlist user_data)
                now signal n k s in
  match ledger (sent_alert_cache s) username topic with
  | Some last =>
      ((now - last < 14400)%Q -> step = ((n, k), s))
      /\ ((14400 <= now - last)%Q ->
          step = scheduled_send username user_data now signal topic n k s)
  | None => step = scheduled_send username user_data now signal topic n k s
  end.
Proof.
  intros Hnow Hb Hm topic step.
  pose proof (cooldown_gate username user_data now signal n k s Hb Hm) as H.
  cbv zeta in H. fold topic in H. fold step in H.
  destruct (ledger (sent_alert_cache s) username topic) as [last|]; [exact H|].
  apply (proj2 H). exact Hnow.
Qed.


(** C6: in the scheduled path the ledger entry of a (user, topic) pair is
    set to the run's time only by a send that reports success.  For one
    signal: without a chat id nothing is sent and the state is unchanged; a
    send that fails leaves the counters and the whole cache unchanged; a
    send that succeeds counts the alert and writes exactly the entry of the
    pair.  For a whole run: as many alerts are counted as sends succeeded,
    the pairs of the counted alerts hold the run's time afterwards, and every
    other pair keeps its entry. *)
Theorem ledger_written_only_on_success username user_data now signal topic n k (s : St W) :
  (truthy (u_chat_id user_data) = false ->
     scheduled_send username user_data now signal topic n k s = ((n, k), s))
  /\ (truthy (u_chat_id user_data) = true ->
      (send_telegram_alert (default "" (u_chat_id user_data))
         (scheduled_message signal topic) s).1 = false ->
      (scheduled_send username user_data now signal topic n k s).1 = (n, k)
      /\ sent_alert_cache (scheduled_send username user_data now signal topic n k s).2
         = sent_alert_cache s)
  /\ (truthy (u_chat_id user_data) = true ->
      (send_telegram_alert (default "" (u_chat_id user_data))
         (scheduled_message signal topic) s).1 = true ->
      (scheduled_send username user_data now signal topic n k s).1 = (S n, S k)
      /\ sent_alert_cache (scheduled_send username user_data now signal topic n k s).2
         = record_sent (sent_alert_cache s) username topic now
      /\ forall u t,
           ledger (sent_alert_cache
                     (scheduled_send username user_data now signal topic n k s).2) u t
           = if decide (u = username /\ t = topic) then Some now
             else ledger (sent_alert_cache s) u t)
  /\ (forall signals users,
        exists ds evs s',
          scheduled_users now signals users n s = (n + length ds, s')
          /\ effect now s s' ds evs).
Proof.
  split_and!.
  - intros Hc. unfold scheduled_send. rewrite Hc. reflexivity.
  - intros Hc. unfold scheduled_send. rewrite Hc. unfold bind.
    destruct (send_telegram_alert _ _ s) as [ok s1] eqn:Hs.
    apply send_telegram_alert_state in Hs as (Hcache & _).
    cbn. intros ->. split; [reflexivity | exact Hcache].
  - intros Hc. unfold scheduled_send. rewrite Hc. unfold bind.
    destruct (send_telegram_alert _ _ s) as [ok s1] eqn:Hs.
    apply send_telegram_alert_state in Hs as (Hcache & _).
    cbn. intros ->. cbn. rewrite Hcache. split_and!; [reflexivity..|].
    intros u t. apply ledger_record_sent.
  - intros signals users.
    destruct (scheduled_users_effect now signals users n s)
      as (ds & evs & s' & Hr & He & _).
    exists ds, evs, s'. split; assumption.
Qed.

(** C7: a scheduled scan that is handed an empty signal sequence completes
    without error and produces zero dispatches: it returns its count of
    alerts unchanged, calls the transport for nobody, counts no alert and
    leaves every ledger entry as it was. *)
Theorem scan_of_no_signals now users n (s : St W) :
  exists s',
    scheduled_users now [] users n s = (n, s')
    /\ st_sends s' = st_sends s
    /\ st_dispatched s' = st_dispatched s
    /\ forall u t, ledger (sent_alert_cache s') u t = ledger (sent_alert_cache s) u t.
Proof.
  destruct (scheduled_users_effect now [] users n s)
    as (ds & evs & s' & Hr & (Hd & He & Hc & Hl) & _ & _ & Hlen).
  cbn [length] in Hlen. rewrite Nat.mul_0_r in Hlen.
  assert (evs = []) as -> by (apply length_zero_iff_nil; lia).
  cbn in Hc. assert (ds = []) as -> by (apply length_zero_iff_nil; exact Hc).
  exists s'. rewrite app_nil_r in Hd, He. cbn in Hr. rewrite Nat.add_0_r in Hr.
  split_and!; [exact Hr | exact He | exact Hd |].
  intros u t. rewrite Hl. reflexivity.
Qed.

Lemma is_bearish_spec headline :
  is_bearish headline = true
  <-> exists kw, kw ∈ bearish_keywords
                 /\ exists pre post, headline = pre +:+ kw +:+ post.
Proof.
  unfold is_bearish. rewrite existsb_exists. split.
  - intros [kw [Hin Hc]]. exists kw. split; [apply list_elem_of_In; exact Hin|].
    apply contains_spec. exact Hc.
  - intros [kw [Hin Hc]]. exists kw. split; [apply list_elem_of_In; exact Hin|].
    apply contains_spec. exact Hc.
Qed.

Lemma scheduled_signal_content content username user_data wl now signal n k (s : St W) :
  scheduled_signal username user_data wl now (with_content content signal) n k s
  = scheduled_signal username user_data wl now signal n k s.
Proof. reflexivity. Qed.

Lemma scheduled_signals_content (f : Signal -> string) username user_data wl now
    signals n k (s : St W) :
  scheduled_signals username user_data wl now
    ((fun signal => with_content (f signal) signal) <$> signals) n k s
  = scheduled_signals username user_data wl now signals n k s.
Proof.
  revert n k s. induction signals as [|signal rest IH]; intros n k s; [reflexivity|].
  cbn [fmap list_fmap scheduled_signals]. destruct (2 <=? k); [reflexivity|].
  unfold bind. rewrite scheduled_signal_content.
  destruct (scheduled_signal _ _ _ _ _ _ _ _) as [[n' k'] s']. apply IH.
Qed.

Lemma scheduled_users_content (f : Signal -> string) now signals users n (s : St W) :
  scheduled_users now ((fun signal => with_content (f signal) signal) <$> signals) users n s
  = scheduled_users now signals users n s.
Proof.
  revert n s. induction users as [|[username user_data] rest IH]; intros n s; [reflexivity|].
  cbn [scheduled_users]. unfold bind.
  assert (scheduled_user now ((fun signal => with_content (f signal) signal) <$> signals)
            username user_data n s
          = scheduled_user now signals username user_data n s) as ->.
  { unfold scheduled_user, bind. destruct (get_cache s) as [c s0].
    destruct (c !! username); cbn [set_cache ret];
      rewrite scheduled_signals_content; reflexivity. }
  destruct (scheduled_user now signals username user_data n s) as [n' s']. apply IH.
Qed.

(** C9: in the scheduled path a signal is considered for an alert exactly
    when its lower-cased headline contains one of the seven words "crash",
    "fall", "drop", "plunge", "loss", "sell-off", "collapse": a signal
    without such a word is skipped with the state unchanged, a signal with one
    goes on to the keyword match and the cooldown test.  The content of the
    signals and the sentiment classifier play no part: the scan does the same
    whatever the contents are, and the run does the same under any scorer. *)
Theorem scheduled_eligibility username user_data now signal n k (s : St W) :
  bearish_keywords = ["crash"; "fall"; "drop"; "plunge"; "loss"; "sell-off"; "collapse"]
  /\ (is_bearish (PyStr.lower (sig_headline signal)) = true
      <-> exists kw, kw ∈ bearish_keywords
                     /\ exists pre post,
                          PyStr.lower (sig_headline signal) = pre +:+ kw +:+ post)
  /\ (is_bearish (PyStr.lower (sig_headline signal)) = false ->
      scheduled_signal username user_data (PyStr.lower <$> u_watchlist user_data)
        now signal n k s = ((n, k), s))
  /\ (is_bearish (PyStr.lower (sig_headline signal)) = true ->
      scheduled_signal username user_data (PyStr.lower <$> u_watchlist user_data)
        now signal n k s
      = if nonempty (matched_keywords (sig_keywords signal) (u_watchlist user_data))
           && negb (in_cooldown now
                      (last_sent (sent_alert_cache s) username
                         (first_of (matched_keywords (sig_keywords signal)
                                      (u_watchlist user_data)))))
        then scheduled_send username user_data now signal
               (first_of (matched_keywords (sig_keywords signal) (u_watchlist user_data)))
               n k s
        else ((n, k), s))
  /\ (forall (f : Signal -> string) signals users,
        scheduled_users now ((fun sg => with_content (f sg) sg) <$> signals) users n s
        = scheduled_users now signals users n s)
  /\ (forall scorer rnd fmt,
        @run_scheduled_alert_check W (with_classifier E scorer rnd fmt) s
        = @run_scheduled_alert_check W E s).
Proof.
  split_and!.
  - reflexivity.
  - apply is_bearish_spec.
  - intros Hb. rewrite scheduled_signal_cases, Hb. reflexivity.
  - intros Hb. rewrite scheduled_signal_cases, Hb. reflexivity.
  - intros f signals users. apply scheduled_users_content.
  - intros scorer rnd fmt. reflexivity.
Qed.

End Scheduled.

(** *** The scheduled path on concrete runs *)

(** The cooldown window on the first run of the scenario "Bitcoin crashes
    15%" with an empty ledger, at a clock of 1000000 seconds: the send is
    reached. *)
Lemma cooldown_window_witness :
  @scheduled_signal unit
    (Fixture.env [Fixture.bitcoin_signal] (Fixture.one_user "111" ["bitcoin"]) 1000000%Q [])
    "user" (mkUser (Some "111") ["bitcoin"]) ["bitcoin"] 1000000%Q
    Fixture.bitcoin_signal 0 0 (Fixture.init ∅)
  = @scheduled_send unit
      (Fixture.env [Fixture.bitcoin_signal] (Fixture.one_user "111" ["bitcoin"]) 1000000%Q [])
      "user" (mkUser (Some "111") ["bitcoin"]) 1000000%Q Fixture.bitcoin_signal
      "bitcoin" 0 0 (Fixture.init ∅).
Proof.
  assert (Hnow : (14400 <= 1000000)%Q) by (vm_compute; discriminate).
  pose proof (@cooldown_window unit
                (Fixture.env [Fixture.bitcoin_signal] (Fixture.one_user "111" ["bitcoin"])
                   1000000%Q [])
                "user" (mkUser (Some "111") ["bitcoin"]) 1000000%Q Fixture.bitcoin_signal
                0 0 (Fixture.init ∅) Hnow eq_refl eq_refl) as H.
  cbv zeta in H. change (ledger _ _ _) with (@None Q) in H. cbv iota beta in H.
  exact H.
Defined.

(** The scenario of the specification: one dispatch on the first run, with
    the ledger entry of ("user", "bitcoin") at the run's time. *)
Example scenario_first_run :
  let r := @run_scheduled_alert_check unit
             (Fixture.env [Fixture.bitcoin_signal] (Fixture.one_user "111" ["bitcoin"])
                1000000%Q [])
             (Fixture.init ∅) in
  r.1 = Completed 1
  /\ st_dispatched r.2 = [mkDispatch "user" (IdStr "s1") "bitcoin"]
  /\ ledger (sent_alert_cache r.2) "user" "bitcoin" = Some 1000000%Q.
Proof. split_and!; vm_compute; reflexivity. Qed.

(** The same scan ten minutes later sends nothing; five hours later it sends
    one alert and overwrites the entry. *)
Example scenario_rerun :
  let c : gmap string (gmap string Q) := {[ "user" := {[ "bitcoin" := 1000000%Q ]} ]} in
  let soon := @run_scheduled_alert_check unit
                (Fixture.env [Fixture.bitcoin_signal] (Fixture.one_user "111" ["bitcoin"])
                   1000600%Q [])
                (Fixture.init c) in
  let later := @run_scheduled_alert_check unit
                 (Fixture.env [Fixture.bitcoin_signal] (Fixture.one_user "111" ["bitcoin"])
                    1018000%Q [])
                 (Fixture.init c) in
  soon.1 = Completed 0
  /\ st_sends soon.2 = []
  /\ ledger (sent_alert_cache soon.2) "user" "bitcoin" = Some 1000000%Q
  /\ later.1 = Completed 1
  /\ ledger (sent_alert_cache later.2) "user" "bitcoin" = Some 1018000%Q.
Proof. split_and!; vm_compute; reflexivity. Qed.

(** A failed send leaves the ledger without an entry. *)
Example scenario_failed_send :
  let r := @run_scheduled_alert_check unit
             (Fixture.env [Fixture.bitcoin_signal] (Fixture.one_user "111" ["bitcoin"])
                1000000%Q ["111"])
             (Fixture.init ∅) in
  r.1 = Completed 0
  /\ ev_ok <$> st_sends r.2 = [false]
  /\ ledger (sent_alert_cache r.2) "user" "bitcoin" = None.
Proof. split_and!; vm_compute; reflexivity. Qed.

(** Three signals a user would be alerted about, one run: the first two are
    sent, the third is not looked at. *)
Example cap_three_signals :
  let E := Fixture.env Fixture.three_signals
             (Fixture.one_user "111" ["bitcoin"; "tesla"; "oil"]) 1000000%Q [] in
  let r := @run_scheduled_alert_check unit E (Fixture.init ∅) in
  r.1 = Completed 2
  /\ d_signal_id <$> st_dispatched r.2 = [IdStr "s1"; IdStr "s2"]
  /\ length (st_sends r.2) = 2.
Proof. split_and!; vm_compute; reflexivity. Qed.


(** When the three sources return nothing, [fetch_all_signals] hands the scan
    the built-in signals, and a user who watches "bitcoin" is alerted about
    the second of them. *)
Example empty_sources_fall_back :
  (@fetch_all_signals unit
     (Fixture.env [] (Fixture.one_user "111" ["bitcoin"]) 1000000%Q [])
     (Fixture.init ∅)).1 = MOCK_SIGNALS
  /\ (@run_scheduled_alert_check unit
        (Fixture.env [] (Fixture.one_user "111" ["bitcoin"]) 1000000%Q [])
        (Fixture.init ∅)).1 = Completed 1
  /\ st_dispatched (@run_scheduled_alert_check unit
        (Fixture.env [] (Fixture.one_user "111" ["bitcoin"]) 1000000%Q [])
        (Fixture.init ∅)).2 = [mkDispatch "user" (IdInt 2) "bitcoin"].
Proof. split_and!; vm_compute; reflexivity. Qed.

(** *** The on-demand path *)

Section OnDemand.
Context {W : Type} `{E : Externals W}.

Lemma matching_pairs_cons signal analyzed (users : list (string * UserData)) :
  matching_pairs (signal :: analyzed) users
  = (users ≫= fun user => if is_match signal user.2 then [(signal, user)] else [])
    ++ matching_pairs analyzed users.
Proof. reflexivity. Qed.

(** What a stretch of the on-demand path did between [s] and [s']: it called
    the transport as in [evs] and touched neither the ledger nor the alerts
    counted by the scheduled path. *)
Lemma trigger_user_effect signal username user_data n found (s : St W) :
  exists evs recs s',
    trigger_user signal (PyStr.lower <$> sig_keywords (a_signal signal))
      username user_data n found s = ((n + count_ok evs, found ++ recs), s')
    /\ st_sends s' = st_sends s ++ evs
    /\ sent_alert_cache s' = sent_alert_cache s
    /\ st_dispatched s' = st_dispatched s
    /\ m_user <$> recs
       = (if nonempty (matched_keywords (sig_keywords (a_signal signal))
                         (u_watchlist user_data))
          then [username] else [])
    /\ length evs
       = (if nonempty (matched_keywords (sig_keywords (a_signal signal))
                         (u_watchlist user_data))
             && truthy (u_chat_id user_data)
          then 1 else 0).
Proof.
  unfold trigger_user.
  change (list_to_set (PyStr.lower <$> sig_keywords (a_signal signal))
          ∩ list_to_set (PyStr.lower <$> u_watchlist user_data))
    with (matched_keywords (sig_keywords (a_signal signal)) (u_watchlist user_data)).
  destruct (nonempty _).
  - destruct (truthy (u_chat_id user_data)); unfold bind.
    + destruct (send_telegram_alert _ _ s) as [ok s1] eqn:Hs.
      apply send_telegram_alert_state in Hs as (Hc & He & Hd).
      eexists [mkSend _ _ ok], [_], s1. cbn [ret andb fmap list_fmap m_user length].
      split; [destruct ok; cbn; rewrite ?Nat.add_1_r, ?Nat.add_0_r; reflexivity|].
      split_and!; [exact He|exact Hc|exact Hd|reflexivity|reflexivity].
    + eexists [], [_], s. cbn. rewrite !app_nil_r, Nat.add_0_r. split_and!; reflexivity.
  - exists [], [], s. cbn. rewrite !app_nil_r, Nat.add_0_r. split_and!; reflexivity.
Qed.

Lemma trigger_users_effect signal users n found (s : St W) :
  exists evs recs s',
    trigger_users signal (PyStr.lower <$> sig_keywords (a_signal signal))
      users n found s = ((n + count_ok evs, found ++ recs), s')
    /\ st_sends s' = st_sends s ++ evs
    /\ sent_alert_cache s' = sent_alert_cache s
    /\ st_dispatched s' = st_dispatched s
    /\ m_user <$> recs
       = fst <$> filter (fun user =>
                    nonempty (matched_keywords (sig_keywords (a_signal signal))
                                (u_watchlist user.2)) = true) users
    /\ length evs
       = length (filter (fun user =>
                    nonempty (matched_keywords (sig_keywords (a_signal signal))
                                (u_watchlist user.2))
                    && truthy (u_chat_id user.2) = true) users).
Proof.
  revert n found s. induction users as [|[username user_data] rest IH]; intros n found s.
  - exists [], [], s. cbn. rewrite !app_nil_r, Nat.add_0_r. split_and!; reflexivity.
  - cbn [trigger_users]. unfold bind.
    destruct (trigger_user_effect signal username user_data n found s)
      as (evs1 & recs1 & s1 & Hr1 & He1 & Hc1 & Hd1 & Hu1 & Hl1).
    rewrite Hr1. cbn [fst snd].
    destruct (IH (n + count_ok evs1) (found ++ recs1) s1)
      as (evs2 & recs2 & s2 & Hr2 & He2 & Hc2 & Hd2 & Hu2 & Hl2).
    exists (evs1 ++ evs2), (recs1 ++ recs2), s2.
    rewrite Hr2, He2, He1, Hc2, Hc1, Hd2, Hd1, count_ok_app, fmap_app, length_app,
      Hu1, Hu2, Hl1, Hl2, !app_assoc, Nat.add_assoc.
    rewrite !filter_cons. cbn [snd].
    split_and!; try reflexivity.
    + destruct (nonempty _); reflexivity.
    + destruct (nonempty _ && truthy _); reflexivity.
Qed.

Lemma pairs_of_signal signal (users : list (string * UserData)) :
  let pairs := users ≫= fun user => if is_match signal user.2 then [(signal, user)] else [] in
  (fun p : Analyzed * (string * UserData) => p.2.1) <$> pairs
  = (if processed signal
     then fst <$> filter (fun user =>
                     nonempty (matched_keywords (sig_keywords (a_signal signal))
                                 (u_watchlist user.2)) = true) users
     else [])
  /\ length (filter (fun p : Analyzed * (string * UserData) =>
                       truthy (u_chat_id p.2.2) = true) pairs)
     = (if processed signal
        then length (filter (fun user =>
                       nonempty (matched_keywords (sig_keywords (a_signal signal))
                                   (u_watchlist user.2))
                       && truthy (u_chat_id user.2) = true) users)
        else 0).
Proof.
  cbv zeta. unfold is_match. induction users as [|[username user_data] rest [IH1 IH2]].
  - destruct (processed signal); split; reflexivity.
  - rewrite bind_cons, fmap_app, filter_app, length_app, IH1, IH2, !filter_cons.
    cbn [snd fst].
    destruct (processed signal); [|split; reflexivity]. cbn [andb].
    destruct (nonempty _); [|split; reflexivity].
    cbn [andb]. rewrite filter_cons, filter_nil. cbn [snd fst].
    destruct (truthy (u_chat_id user_data)); split; reflexivity.
Qed.

Lemma trigger_signals_effect analyzed users n found (s : St W) :
  exists evs recs s',
    trigger_signals analyzed users n found s = ((n + count_ok evs, found ++ recs), s')
    /\ st_sends s' = st_sends s ++ evs
    /\ sent_alert_cache s' = sent_alert_cache s
    /\ st_dispatched s' = st_dispatched s
    /\ m_user <$> recs
       = (fun p : Analyzed * (string * UserData) => p.2.1) <$> matching_pairs analyzed users
    /\ length evs
       = length (filter (fun p : Analyzed * (string * UserData) =>
                           truthy (u_chat_id p.2.2) = true)
                   (matching_pairs analyzed users)).
Proof.
  revert n found s. induction analyzed as [|signal rest IH]; intros n found s.
  - exists [], [], s. cbn. rewrite !app_nil_r, Nat.add_0_r. split_and!; reflexivity.
  - cbn [trigger_signals]. rewrite matching_pairs_cons, fmap_app, filter_app, length_app.
    destruct (pairs_of_signal signal users) as [Hp1 Hp2]. cbv zeta in Hp1, Hp2.
    rewrite Hp1, Hp2. clear Hp1 Hp2.
    destruct (processed signal); cbn [negb].
    + unfold bind.
      destruct (trigger_users_effect signal users n found s)
        as (evs1 & recs1 & s1 & Hr1 & He1 & Hc1 & Hd1 & Hu1 & Hl1).
      rewrite Hr1. cbn [fst snd].
      destruct (IH (n + count_ok evs1) (found ++ recs1) s1)
        as (evs2 & recs2 & s2 & Hr2 & He2 & Hc2 & Hd2 & Hu2 & Hl2).
      exists (evs1 ++ evs2), (recs1 ++ recs2), s2.
      rewrite Hr2, He2, He1, Hc2, Hc1, Hd2, Hd1, count_ok_app, fmap_app, length_app,
        Hu1, Hu2, Hl1, Hl2, !app_assoc, Nat.add_assoc.
      split_and!; reflexivity.
    + destruct (IH n found s) as (evs2 & recs2 & s2 & Hr2 & He2 & Hc2 & Hd2 & Hu2 & Hl2).
      exists evs2, recs2, s2. rewrite Hr2, Hu2, Hl2. split_and!; try assumption; reflexivity.
Qed.

End OnDemand.

(** C2: the on-demand path puts every (signal, user) keyword match of the
    signals it processes into its list of match records, whatever the
    transport answers, and adds to
    [alerts_sent] only the transport calls that report success: the match
    records are those of the matching pairs, in loop order; the transport is
    called once per matching pair whose user has a chat id; [alerts_sent] is
    the number of those calls that succeeded; [matches_found] is the length
    of the list of match records; and the ledger is not touched.  On the
    scenario of one Negative signal matching the watchlists of two users,
    with the transport failing for the second, the result has
    [alerts_sent = 1] and [matches_found = 2]. *)
Theorem on_demand_counts :
  (forall W (E : Externals W) analyzed users (s : St W),
      exists evs details s',
        trigger_signals analyzed users 0 [] s = ((count_ok evs, details), s')
        /\ st_sends s' = st_sends s ++ evs
        /\ m_user <$> details
           = (fun p : Analyzed * (string * UserData) => p.2.1)
               <$> matching_pairs analyzed users
        /\ length details = length (matching_pairs analyzed users)
        /\ length evs
           = length (filter (fun p : Analyzed * (string * UserData) =>
                               truthy (u_chat_id p.2.2) = true)
                       (matching_pairs analyzed users))
        /\ sent_alert_cache s' = sent_alert_cache s)
  /\ (forall W (E : Externals W) (s : St W),
        match (trigger_check s).1 with
        | Some r =>
            r_matches_found r = length (r_details r)
            /\ r_alerts_sent r = count_ok (since (st_sends s) (st_sends (trigger_check s).2))
            /\ r_alerts_sent r <= r_matches_found r
        | None => (load_data (st_world s)).1 = None
        end)
  /\ (let E := Fixture.env [Fixture.bitcoin_signal]
                 [("a", mkUser (Some "111") ["bitcoin"]);
                  ("b", mkUser (Some "222") ["CRYPTO"])] 1000000%Q ["222"] in
      a_sentiment <$> (@analyze_signals_with_llm unit E [Fixture.bitcoin_signal]).1
        = [Negative]
      /\ r_alerts_sent <$> (@trigger_check unit E (Fixture.init ∅)).1 = Some 1
      /\ r_matches_found <$> (@trigger_check unit E (Fixture.init ∅)).1 = Some 2
      /\ ev_ok <$> st_sends (@trigger_check unit E (Fixture.init ∅)).2 = [true; false]).
Proof.
  split_and!.
  - intros W E analyzed users s.
    destruct (trigger_signals_effect analyzed users 0 [] s)
      as (evs & recs & s' & Hr & He & Hc & _ & Hu & Hl).
    exists evs, recs, s'. cbn in Hr.
    split_and!; try assumption.
    rewrite <- (length_fmap m_user), Hu, length_fmap. reflexivity.
  - intros W E s. unfold trigger_check, bind, lift_world.
    destruct (load_data (st_world s)) as [[users|] w]; cbn [fst snd ret]; [|reflexivity].
    set (s0 := mkSt w _ _ _).
    destruct (fetch_all_signals_spec s0) as [w1 Hf]. rewrite Hf. clear Hf.
    destruct (analyze_signals_with_llm _) as [analyzed summary].
    set (s1 := mkSt w1 _ _ _).
    destruct (trigger_signals_effect analyzed users 0 [] s1)
      as (evs & recs & s' & Hr & He & _ & _ & Hu & Hl).
    rewrite Hr. cbn in He |- *. rewrite He, since_app.
    split_and!; [reflexivity..|].
    unfold count_ok. etrans; [apply length_filter|]. rewrite Hl.
    etrans; [apply length_filter|].
    rewrite <- (length_fmap m_user recs), Hu, length_fmap. reflexivity.
  - cbv zeta. split_and!; vm_compute; reflexivity.
Qed.

(** *** The keyword matcher in the two paths *)

Section MatcherInPaths.
Context {W : Type} `{E : Externals W}.


End MatcherInPaths.


(** ** Further properties *)

(** *** Keyword extraction *)

Lemma extract_loop_filter text_lower keywords found :
  extract_loop text_lower keywords found
  = found ++ filter (fun k => PyStr.contains (PyStr.lower k) text_lower = true) keywords.
Proof.
  revert found. induction keywords as [|k rest IH]; intros found; cbn [extract_loop].
  - rewrite filter_nil, app_nil_r. reflexivity.
  - rewrite filter_cons. destruct (PyStr.contains _ _) eqn:Hc.
    + rewrite IH, decide_True by reflexivity. rewrite <- app_assoc. reflexivity.
    + rewrite IH, decide_False by discriminate. reflexivity.
Qed.

(** X1: [extract_keywords] never returns an empty list and never more than
    five keywords.  It returns the fallback ["general"] exactly when no known
    keyword occurs in the text; otherwise it returns the first (at most
    five) known keywords whose lower-cased form is a substring of the
    lower-cased text, in the order of the known list. *)
Theorem extract_keywords_result (text : string) :
  0 < length (extract_keywords text) <= 5
  /\ (extract_keywords text = ["general"]
      <-> forall k, k ∈ known_keywords ->
                    PyStr.contains (PyStr.lower k) (PyStr.lower text) = false)
  /\ (extract_keywords text = ["general"]
      \/ extract_keywords text
         = take 5 (filter (fun k => PyStr.contains (PyStr.lower k) (PyStr.lower text) = true)
                     known_keywords))
  /\ (extract_keywords text <> ["general"] ->
      extract_keywords text `sublist_of` known_keywords
      /\ forall k, k ∈ extract_keywords text ->
           exists pre post, PyStr.lower text = pre +:+ PyStr.lower k +:+ post).
Proof.
  unfold extract_keywords. rewrite extract_loop_filter, app_nil_l.
  set (P := fun k => PyStr.contains (PyStr.lower k) (PyStr.lower text) = true).
  assert (Hgen : "general" ∉ known_keywords) by (apply (bool_decide_unpack _); vm_compute; exact I).
  destruct (filter P known_keywords) as [|k0 found] eqn:Hf.
  - split; [cbn; lia|]. split_and!.
    + split; [|reflexivity]. intros _ k Hk.
      destruct (PyStr.contains (PyStr.lower k) (PyStr.lower text)) eqn:Hc; [|reflexivity].
      assert (k ∈ filter P known_keywords) as Hin by (apply list_elem_of_filter; split; assumption).
      rewrite Hf in Hin. inversion Hin.
    + left. reflexivity.
    + intros H. contradiction H. reflexivity.
  - assert (Hsub : take 5 (k0 :: found) `sublist_of` known_keywords).
    { rewrite <- Hf. etrans; [apply sublist_take|]. apply sublist_filter. }
    assert (Hne : take 5 (k0 :: found) <> ["general"]).
    { intros Heq. apply Hgen. eapply elem_of_sublist; [|exact Hsub]. rewrite Heq. left. }
    split; [rewrite length_take; cbn [length]; lia|]. split_and!.
    + split; [intros H; contradiction|].
      intros Hall. exfalso.
      assert (k0 ∈ filter P known_keywords) as Hin by (rewrite Hf; left).
      apply list_elem_of_filter in Hin as [HP Hin]. unfold P in HP.
      rewrite (Hall k0 Hin) in HP. discriminate.
    + right. reflexivity.
    + intros _. split; [exact Hsub|]. intros k Hk.
      assert (k ∈ filter P known_keywords) as Hin.
      { rewrite Hf. eapply elem_of_sublist; [exact Hk|apply sublist_take]. }
      apply list_elem_of_filter in Hin as [HP _]. apply contains_spec. exact HP.
Qed.

(** X2: [extract_keywords] does not depend on the case of the text: any
    change of case of its ASCII letters gives the same keywords. *)
Theorem extract_keywords_case_insensitive (m : nat -> bool) (text : string) :
  extract_keywords (PyStr.recase m text) = extract_keywords text.
Proof. unfold extract_keywords. rewrite lower_recase. reflexivity. Qed.

Section MoreClassification.
Context {W : Type} `{E : Externals W}.

Lemma analyze_loop_counts signals analyzed b u :
  analyze_loop signals analyzed b u
  = (analyzed ++ (analyze_signal <$> signals),
     b + length (filter (fun a => a_sentiment a = Negative) (analyze_signal <$> signals)),
     u + length (filter (fun a => a_sentiment a = Positive) (analyze_signal <$> signals))).
Proof.
  revert analyzed b u. induction signals as [|x l IH]; intros analyzed b u.
  - cbn. rewrite app_nil_r, !Nat.add_0_r. reflexivity.
  - cbn [analyze_loop fmap list_fmap]. rewrite IH, !filter_cons, <- app_assoc.
    destruct (a_sentiment (analyze_signal x)) eqn:Hs;
      cbn [decide decide_rel Sentiment_eq_dec];
      repeat (first [rewrite decide_True by congruence | rewrite decide_False by congruence]);
      cbn [length]; rewrite ?Nat.add_succ_r; reflexivity.
Qed.

(** X3: [analyze_signals_with_llm] classifies every signal and drops none:
    the analysed list carries the input signals in the same order.  The
    market summary names the input length and says "Bearish" exactly when
    strictly more signals are labelled Negative than Positive; a tie, and an
    empty input, give "Bullish". *)
Theorem analysis_keeps_signals (signals : list Signal) :
  let negatives := length (filter (fun a => a_sentiment a = Negative)
                             (analyze_signals_with_llm signals).1) in
  let positives := length (filter (fun a => a_sentiment a = Positive)
                             (analyze_signals_with_llm signals).1) in
  a_signal <$> (analyze_signals_with_llm signals).1 = signals
  /\ length (analyze_signals_with_llm signals).1 = length signals
  /\ (analyze_signals_with_llm signals).2
     = "Validating " +:+ str_of_nat (length signals)
       +:+ " signals. Market appears lean towards "
       +:+ (if decide (positives < negatives) then "Bearish" else "Bullish")
       +:+ " sentiment.".
Proof.
  cbv zeta. unfold analyze_signals_with_llm. rewrite analyze_loop_counts.
  cbn [fst snd app]. rewrite !Nat.add_0_l.
  split_and!.
  - rewrite <- list_fmap_compose. apply list_fmap_id.
  - apply length_fmap.
  - destruct (Nat.ltb_spec
      (length (filter (fun a => a_sentiment a = Positive) (analyze_signal <$> signals)))
      (length (filter (fun a => a_sentiment a = Negative) (analyze_signal <$> signals)))).
    + rewrite decide_True by assumption. reflexivity.
    + rewrite decide_False by lia. reflexivity.
Qed.

(** X4: the urgency of a classified signal is never [medium]; it is [high]
    exactly for a Negative signal with a score below -0.5 and no crisis
    word, and [low] exactly for a signal that is not Negative or that has a
    score of at least -0.5 and no crisis word.  The recommendation is
    "Monitor" exactly for urgency high or critical and "Hold" exactly for
    low, and the stored score is the rounded compound score. *)
Theorem urgency_table (signal : Signal) :
  let a := analyze_signal signal in
  let score := polarity_compound (full_text signal) in
  a_urgency a <> medium
  /\ (a_urgency a = high
      <-> a_sentiment a = Negative /\ (score < -0.5)%Q /\ has_crisis_lexeme signal = false)
  /\ (a_urgency a = low
      <-> a_sentiment a <> Negative
          \/ ((-0.5 <= score)%Q /\ has_crisis_lexeme signal = false))
  /\ (a_recommendation a = "Monitor" <-> a_urgency a = high \/ a_urgency a = critical)
  /\ (a_recommendation a = "Hold" <-> a_urgency a = low)
  /\ a_sentiment_score a = round3 score.
Proof.
  cbv zeta.
  assert (Hrec : a_recommendation (analyze_signal signal)
                 = match a_urgency (analyze_signal signal) with
                   | high | critical => "Monitor" | _ => "Hold" end).
  { unfold analyze_signal. destruct (analyze_sentiment (full_text signal)). reflexivity. }
  assert (Hscore : a_sentiment_score (analyze_signal signal)
                   = round3 (polarity_compound (full_text signal))) by reflexivity.
  rewrite Hrec, analyze_signal_urgency.
  destruct (a_sentiment (analyze_signal signal)) eqn:Hl.
  1,3: split_and!; try discriminate; try reflexivity; try exact Hscore;
       (split; [intros; try discriminate; auto | intros; try reflexivity]);
       try (left; discriminate);
       try (match goal with H : _ /\ _ |- _ => destruct H; discriminate end);
       try (match goal with H : _ \/ _ |- _ => destruct H; discriminate end).
  destruct (has_crisis_lexeme signal).
  - split_and!; try discriminate; try exact Hscore.
    + split; [discriminate | intros (_ & _ & ?); discriminate].
    + split; [discriminate | intros [H|[_ H]]; [contradiction H; reflexivity | discriminate]].
    + split; [intros _; right; reflexivity | reflexivity].
    + split; discriminate.
  - destruct (Qlt_bool _ _) eqn:Hq.
    + apply Qlt_bool_iff in Hq. split_and!; try discriminate; try exact Hscore.
      * split; [intros _; split_and!; [reflexivity | exact Hq | reflexivity] | reflexivity].
      * split; [discriminate | intros [H|[H _]]; [contradiction H; reflexivity | lra]].
      * split; [intros _; left; reflexivity | reflexivity].
      * split; discriminate.
    + apply Qlt_bool_false in Hq. split_and!; try discriminate; try exact Hscore.
      * split; [discriminate | intros (_ & H & _); lra].
      * split; [intros _; right; split; [exact Hq | reflexivity] | reflexivity].
      * split; [discriminate | intros [?|?]; discriminate].
      * split; reflexivity.
Qed.

End MoreClassification.

Section Transport.
Context {W : Type} `{E : Externals W}.

(** X5: [send_telegram_alert] without a bot token (unset or empty) returns
    [False] without any request to Telegram; with a token it makes one
    request and returns [True] exactly when the response has status 200 (any
    other status, and a request exception, give [False]).  It never touches
    the cooldown ledger. *)
Theorem send_telegram_alert_outcome chat_id message (s : St W) :
  let r := send_telegram_alert chat_id message s in
  st_sends r.2 = st_sends s ++ [mkSend chat_id message r.1]
  /\ sent_alert_cache r.2 = sent_alert_cache s
  /\ st_dispatched r.2 = st_dispatched s
  /\ (truthy TELEGRAM_BOT_TOKEN = false -> r.1 = false /\ st_world r.2 = st_world s)
  /\ (truthy TELEGRAM_BOT_TOKEN = true ->
      (r.1 = true <-> (requests_post chat_id message (st_world s)).1 = Some 200%Z)
      /\ st_world r.2 = (requests_post chat_id message (st_world s)).2).
Proof.
  cbv zeta. unfold send_telegram_alert, bind, log_send, ret, lift_world.
  destruct (truthy TELEGRAM_BOT_TOKEN); cbn [negb].
  - destruct (requests_post chat_id message (st_world s)) as [[code|] w]; cbn.
    + split_and!; try reflexivity; [discriminate|]. intros _. split; [|reflexivity].
      rewrite Z.eqb_eq. split; [intros ->; reflexivity | intros [= ->]; reflexivity].
    + split_and!; try reflexivity; [discriminate|]. intros _. split; [|reflexivity].
      split; discriminate.
  - cbn. split_and!; try reflexivity; [intros _; split; reflexivity | discriminate].
Qed.

Lemma send_telegram_alert_frame c chat_id message (s : St W) :
  send_telegram_alert chat_id message (with_cache c s)
  = ((send_telegram_alert chat_id message s).1,
     with_cache c (send_telegram_alert chat_id message s).2).
Proof.
  unfold send_telegram_alert, bind, log_send, ret, lift_world, with_cache.
  destruct (negb (truthy TELEGRAM_BOT_TOKEN)); cbn; [reflexivity|].
  destruct (requests_post chat_id message (st_world s)) as [r w]. reflexivity.
Qed.

Lemma trigger_user_frame c signal kws username user_data n found (s : St W) :
  trigger_user signal kws username user_data n found (with_cache c s)
  = ((trigger_user signal kws username user_data n found s).1,
     with_cache c (trigger_user signal kws username user_data n found s).2).
Proof.
  unfold trigger_user. destruct (nonempty _); [|reflexivity].
  destruct (truthy (u_chat_id user_data)); [|reflexivity].
  unfold bind. rewrite send_telegram_alert_frame.
  destruct (send_telegram_alert _ _ s) as [ok s1]. reflexivity.
Qed.

Lemma trigger_users_frame c signal kws users n found (s : St W) :
  trigger_users signal kws users n found (with_cache c s)
  = ((trigger_users signal kws users n found s).1,
     with_cache c (trigger_users signal kws users n found s).2).
Proof.
  revert n found s. induction users as [|[username user_data] rest IH]; intros n found s.
  - reflexivity.
  - cbn [trigger_users]. unfold bind. rewrite trigger_user_frame.
    destruct (trigger_user _ _ _ _ _ _ s) as [acc s1]. cbn [fst snd]. apply IH.
Qed.

Lemma trigger_signals_frame c analyzed users n found (s : St W) :
  trigger_signals analyzed users n found (with_cache c s)
  = ((trigger_signals analyzed users n found s).1,
     with_cache c (trigger_signals analyzed users n found s).2).
Proof.
  revert n found s. induction analyzed as [|signal rest IH]; intros n found s.
  - reflexivity.
  - cbn [trigger_signals]. destruct (negb (processed signal)); [apply IH|].
    unfold bind. rewrite trigger_users_frame.
    destruct (trigger_users _ _ _ _ _ s) as [acc s1]. cbn [fst snd]. apply IH.
Qed.

Lemma fetch_all_signals_frame c (s : St W) :
  fetch_all_signals (with_cache c s)
  = ((fetch_all_signals s).1, with_cache c (fetch_all_signals s).2).
Proof.
  unfold fetch_all_signals, bind, lift_world, with_cache. cbn.
  destruct (fetch_reddit_signals (st_world s)) as [r w1]. cbn.
  destruct (fetch_yahoo_signals w1) as [y w2]. cbn.
  destruct (fetch_moneycontrol_signals w2) as [m w3]. cbn.
  destruct (r ++ y ++ m); reflexivity.
Qed.

(** X6: the on-demand path neither reads nor writes the cooldown ledger:
    [trigger_check] returns the same result, and leaves the same world and
    transport history, whatever the ledger holds, and the ledger is the same
    afterwards. *)
Theorem on_demand_ignores_ledger c (s : St W) :
  trigger_check (with_cache c s)
    = ((trigger_check s).1, with_cache c (trigger_check s).2)
  /\ sent_alert_cache (trigger_check s).2 = sent_alert_cache s
  /\ st_dispatched (trigger_check s).2 = st_dispatched s.
Proof.
  unfold trigger_check, bind.
  assert (Hl : lift_world load_data (with_cache c s)
               = ((lift_world load_data s).1, with_cache c (lift_world load_data s).2)).
  { unfold lift_world, with_cache. cbn.
    destruct (load_data (st_world s)) as [r w]. reflexivity. }
  rewrite Hl.
  assert (Hk : sent_alert_cache (lift_world load_data s).2 = sent_alert_cache s
               /\ st_dispatched (lift_world load_data s).2 = st_dispatched s).
  { unfold lift_world. destruct (load_data (st_world s)) as [r w]. split; reflexivity. }
  destruct (lift_world load_data s) as [[users|] s0]; cbn [fst snd] in *; [|tauto].
  rewrite fetch_all_signals_frame.
  destruct (fetch_all_signals_spec s0) as [w1 Hf].
  destruct (fetch_all_signals s0) as [signals s1]. cbn [fst snd] in *.
  destruct (analyze_signals_with_llm signals) as [analyzed summary].
  rewrite trigger_signals_frame.
  destruct (trigger_signals_effect analyzed users 0 [] s1)
    as (evs & recs & s' & Hr & _ & Hc & Hd & _).
  rewrite Hr. cbn [fst snd ret].
  injection Hf as ->. cbn in Hc, Hd. destruct Hk as [Hk1 Hk2].
  split_and!; [reflexivity | congruence | congruence].
Qed.

End Transport.

Lemma in_cooldown_now now : in_cooldown now now = true.
Proof. unfold in_cooldown. apply Qlt_bool_iff. lra. Qed.

Lemma wrote_iff ds u t : wrote ds u t <-> (u, t) ∈ pair_of <$> ds.
Proof.
  unfold wrote. rewrite Exists_exists, list_elem_of_fmap. unfold pair_of.
  split; intros [d H]; exists d.
  - destruct H as [Hin [<- <-]]. split; [reflexivity | exact Hin].
  - destruct H as [[= -> ->] Hin]. split; [exact Hin | split; reflexivity].
Qed.

Lemma fresh_nil now c : fresh now c [].
Proof. split; constructor. Qed.

Lemma fresh_trans {W} now (s s1 : St W) ds1 evs1 ds2 :
  effect now s s1 ds1 evs1 ->
  fresh now (sent_alert_cache s) ds1 ->
  fresh now (sent_alert_cache s1) ds2 ->
  fresh now (sent_alert_cache s) (ds1 ++ ds2).
Proof.
  intros (_ & _ & _ & Hl) [Hc1 Hn1] [Hc2 Hn2].
  assert (Hnot : Forall (fun d => ~ wrote ds1 (d_user d) (d_topic d)) ds2).
  { eapply Forall_impl; [exact Hc2|]. intros d Hd Hw. cbn in Hd.
    rewrite Hl, decide_True in Hd by exact Hw. cbn in Hd.
    rewrite in_cooldown_now in Hd. discriminate. }
  split.
  - apply Forall_app. split; [exact Hc1|].
    rewrite Forall_forall in Hc2, Hnot |- *. intros d Hd.
    specialize (Hc2 d Hd). specialize (Hnot d Hd). cbn in Hc2.
    rewrite Hl, decide_False in Hc2 by exact Hnot. exact Hc2.
  - rewrite fmap_app. apply NoDup_app. split_and!; [exact Hn1| |exact Hn2].
    intros [u t] H1 H2. apply list_elem_of_fmap in H2 as (d & Hp & Hd).
    rewrite Forall_forall in Hnot. apply (Hnot d Hd).
    apply wrote_iff. injection Hp as <- <-. exact H1.
Qed.

Lemma justified_mono username user_data signals signals' d :
  signals ⊆ signals' ->
  justified username user_data signals d -> justified username user_data signals' d.
Proof. intros Hsub (signal & Hin & H). exists signal. split; [apply Hsub, Hin | exact H]. Qed.

Section ScheduledInvariants.
Context {W : Type} `{E : Externals W}.

Lemma first_of_elem (X : gset string) : X <> ∅ -> first_of X ∈ X.
Proof.
  intros HX. unfold first_of. pose proof (set_order_perm X) as Hp.
  destruct (set_order X) as [|x l] eqn:Hs.
  - symmetry in Hp. apply Permutation_nil_r in Hp. apply elements_empty_inv in Hp.
    apply leibniz_equiv in Hp. contradiction.
  - cbn. apply elem_of_elements. rewrite <- Hp. left.
Qed.

Lemma scheduled_signal_strong username user_data now signal n k (s : St W) :
  exists ds evs s',
    scheduled_signal username user_data (PyStr.lower <$> u_watchlist user_data)
      now signal n k s = ((n + length ds, k + length ds), s')
    /\ effect now s s' ds evs
    /\ fresh now (sent_alert_cache s) ds
    /\ Forall (justified username user_data [signal]) ds.
Proof.
  rewrite scheduled_signal_cases.
  destruct (is_bearish _) eqn:Hb; cycle 1.
  { exists [], [], s. cbn. rewrite !Nat.add_0_r.
    split_and!; [reflexivity | apply effect_refl | apply fresh_nil | constructor]. }
  destruct (nonempty _) eqn:Hm; cycle 1.
  { exists [], [], s. cbn. rewrite !Nat.add_0_r.
    split_and!; [reflexivity | apply effect_refl | apply fresh_nil | constructor]. }
  destruct (in_cooldown _ _) eqn:Hc.
  { exists [], [], s. cbn. rewrite !Nat.add_0_r.
    split_and!; [reflexivity | apply effect_refl | apply fresh_nil | constructor]. }
  cbn [andb negb].
  set (topic := first_of (matched_keywords (sig_keywords signal) (u_watchlist user_data))) in *.
  destruct (scheduled_send_effect username user_data now signal topic n k s)
    as (ds & evs & s' & Hr & He & Hd & _).
  exists ds, evs, s'. split_and!; [exact Hr | exact He | |].
  - destruct Hd as [->| ->]; [apply fresh_nil|]. split.
    + constructor; [|constructor]. cbn. rewrite <- last_sent_ledger. exact Hc.
    + cbn. apply NoDup_singleton.
  - destruct Hd as [->| ->]; constructor; [|constructor].
    exists signal. split_and!; try reflexivity; [left | | exact Hb |].
    + cbn. apply first_of_elem, nonempty_iff, Hm.
    + destruct (truthy (u_chat_id user_data)) eqn:Ht; [reflexivity|].
      unfold scheduled_send in Hr. rewrite Ht in Hr. cbn in Hr.
      injection Hr as Hn _ _. lia.
Qed.

Lemma scheduled_signals_strong username user_data now signals n k (s : St W) :
  exists ds evs s',
    scheduled_signals username user_data (PyStr.lower <$> u_watchlist user_data)
      now signals n k s = ((n + length ds, k + length ds), s')
    /\ effect now s s' ds evs
    /\ fresh now (sent_alert_cache s) ds
    /\ Forall (justified username user_data signals) ds.
Proof.
  revert n k s. induction signals as [|signal rest IH]; intros n k s.
  - exists [], [], s. cbn. rewrite !Nat.add_0_r.
    split_and!; [reflexivity | apply effect_refl | apply fresh_nil | constructor].
  - cbn [scheduled_signals]. destruct (2 <=? k).
    + exists [], [], s. cbn. rewrite !Nat.add_0_r.
      split_and!; [reflexivity | apply effect_refl | apply fresh_nil | constructor].
    + unfold bind.
      destruct (scheduled_signal_strong username user_data now signal n k s)
        as (ds1 & evs1 & s1 & Hr1 & He1 & Hf1 & Hj1).
      rewrite Hr1. cbn [fst snd].
      destruct (IH (n + length ds1) (k + length ds1) s1)
        as (ds2 & evs2 & s2 & Hr2 & He2 & Hf2 & Hj2).
      exists (ds1 ++ ds2), (evs1 ++ evs2), s2.
      rewrite Hr2, !length_app, !Nat.add_assoc.
      split_and!.
      * reflexivity.
      * eapply effect_trans; eassumption.
      * eapply fresh_trans; eassumption.
      * apply Forall_app. split.
        -- eapply Forall_impl; [exact Hj1|]. intros d. apply justified_mono.
           intros x Hx. apply list_elem_of_singleton in Hx as ->. left.
        -- eapply Forall_impl; [exact Hj2|]. intros d. apply justified_mono.
           intros x Hx. right. exact Hx.
Qed.

Lemma scheduled_user_strong now signals username user_data n (s : St W) :
  exists ds evs s',
    scheduled_user now signals username user_data n s = (n + length ds, s')
    /\ effect now s s' ds evs
    /\ fresh now (sent_alert_cache s) ds
    /\ Forall (justified username user_data signals) ds.
Proof.
  unfold scheduled_user. unfold bind at 1. unfold get_cache. unfold bind at 1.
  set (s0 := (match sent_alert_cache s !! username with
              | Some _ => ret tt
              | None => set_cache (<[username:=∅]> (sent_alert_cache s))
              end s).2).
  assert (effect now s s0 [] []) as He0.
  { subst s0. destruct (sent_alert_cache s !! username) eqn:Hu; [apply effect_refl|].
    unfold effect; cbn. rewrite !app_nil_r. split_and!; try reflexivity.
    intros u t. apply ledger_init. assumption. }
  replace (match sent_alert_cache s !! username with
           | Some _ => ret tt
           | None => set_cache (<[username:=∅]> (sent_alert_cache s))
           end s) with (tt, s0)
    by (subst s0; destruct (sent_alert_cache s !! username); reflexivity).
  unfold bind.
  destruct (scheduled_signals_strong username user_data now signals n 0 s0)
    as (ds & evs & s' & Hr & He & Hf & Hj).
  rewrite Hr. cbn [fst snd ret].
  exists ds, evs, s'. split_and!; [reflexivity| | |exact Hj].
  - apply (effect_trans now s s0 s' [] [] ds evs); assumption.
  - apply (fresh_trans now s s0 [] [] ds He0 (fresh_nil _ _) Hf).
Qed.

Lemma scheduled_users_strong now signals users n (s : St W) :
  exists ds evs s',
    scheduled_users now signals users n s = (n + length ds, s')
    /\ effect now s s' ds evs
    /\ fresh now (sent_alert_cache s) ds
    /\ Forall (fun d => exists username user_data,
                 (username, user_data) ∈ users
                 /\ justified username user_data signals d) ds.
Proof.
  revert n s. induction users as [|[username user_data] rest IH]; intros n s.
  - exists [], [], s. cbn. rewrite Nat.add_0_r.
    split_and!; [reflexivity | apply effect_refl | apply fresh_nil | constructor].
  - cbn [scheduled_users]. unfold bind.
    destruct (scheduled_user_strong now signals username user_data n s)
      as (ds1 & evs1 & s1 & Hr1 & He1 & Hf1 & Hj1).
    rewrite Hr1.
    destruct (IH (n + length ds1) s1) as (ds2 & evs2 & s2 & Hr2 & He2 & Hf2 & Hj2).
    exists (ds1 ++ ds2), (evs1 ++ evs2), s2.
    rewrite Hr2, !length_app, Nat.add_assoc. split_and!.
    + reflexivity.
    + eapply effect_trans; eassumption.
    + eapply fresh_trans; eassumption.
    + apply Forall_app. split.
      * eapply Forall_impl; [exact Hj1|]. intros d Hd.
        exists username, user_data. split; [left | exact Hd].
      * eapply Forall_impl; [exact Hj2|]. intros d (u & ud & Hin & Hd).
        exists u, ud. split; [right; exact Hin | exact Hd].
Qed.

(** X7: every alert a scheduled scan counts is for a (user, topic) pair
    whose ledger entry at the start of the scan was at least 14400 seconds
    old (a missing entry counting as time 0).  So a pair alerted less than
    four hours before the scan gets no alert from it and keeps its entry. *)
Theorem alerts_outside_cooldown now signals users n (s : St W) :
  let r := scheduled_users now signals users n s in
  let ds := since (st_dispatched s) (st_dispatched r.2) in
  Forall (fun d =>
            (14400 <= now - default 0 (ledger (sent_alert_cache s) (d_user d) (d_topic d)))%Q)
         ds
  /\ (forall u t last,
        ledger (sent_alert_cache s) u t = Some last ->
        (now - last < 14400)%Q ->
        ~ wrote ds u t /\ ledger (sent_alert_cache r.2) u t = Some last).
Proof.
  cbv zeta.
  destruct (scheduled_users_strong now signals users n s)
    as (ds & evs & s' & Hr & (Hd & _ & _ & Hl) & [Hc _] & _).
  rewrite Hr. cbn [snd]. rewrite Hd, since_app.
  assert (Hall : Forall (fun d =>
            (14400 <= now - default 0 (ledger (sent_alert_cache s) (d_user d) (d_topic d)))%Q)
            ds).
  { eapply Forall_impl; [exact Hc|]. intros d Hin. cbn in Hin.
    apply Qlt_bool_false. exact Hin. }
  split; [exact Hall|].
  intros u t last Hlast Hlt.
  assert (Hnot : ~ wrote ds u t).
  { intros Hw. unfold wrote in Hw. apply Exists_exists in Hw as (d & Hin & <- & <-).
    rewrite Forall_forall in Hall. specialize (Hall d Hin).
    rewrite Hlast in Hall. cbn in Hall. lra. }
  split; [exact Hnot|]. rewrite Hl, decide_False by exact Hnot. exact Hlast.
Qed.

(** X8: every alert a scheduled scan counts went to a registered user who
    has a chat id, about one of the fetched signals whose lower-cased
    headline contains a bearish word, and its topic is a keyword (lower-cased)
    of both that signal and that user's watchlist. *)
Theorem alerts_are_justified now signals users n (s : St W) :
  Forall (fun d => exists username user_data,
            (username, user_data) ∈ users
            /\ justified username user_data signals d)
         (since (st_dispatched s)
            (st_dispatched (scheduled_users now signals users n s).2)).
Proof.
  destruct (scheduled_users_strong now signals users n s)
    as (ds & evs & s' & Hr & (Hd & _) & _ & Hj).
  rewrite Hr. cbn [snd]. rewrite Hd, since_app. exact Hj.
Qed.

(** X9: one run of [run_scheduled_alert_check] never alerts the same
    (user, topic) pair twice; the count it logs is the number of alerts it
    counted, which is the number of transport calls that succeeded; and a
    run that is skipped (no users) or fails (the user file does not load)
    calls the transport for nobody.  The run is skipped exactly when the
    user file loads with no users. *)
Theorem scheduled_run_summary (s : St W) :
  let r := run_scheduled_alert_check s in
  let ds := since (st_dispatched s) (st_dispatched r.2) in
  let evs := since (st_sends s) (st_sends r.2) in
  NoDup (pair_of <$> ds)
  /\ length ds = count_ok evs
  /\ match r.1 with
     | Completed alerts_sent => alerts_sent = length ds
     | _ => ds = [] /\ evs = [] /\ sent_alert_cache r.2 = sent_alert_cache s
     end
  /\ (r.1 = Skipped <-> (load_data (st_world s)).1 = Some []).
Proof.
  cbv zeta. unfold run_scheduled_alert_check, bind, lift_world, ret.
  destruct (load_data (st_world s)) as [[users|] w]; cbn [fst snd st_world].
  - destruct (time_time w) as [now w'].
    destruct users as [|user rest].
    + cbn. unfold since. rewrite !drop_all. cbn.
      split_and!; try reflexivity; [constructor | split; reflexivity].
    + set (s0 := mkSt w' _ _ _).
      destruct (fetch_all_signals_spec s0) as [w1 Hf]. rewrite Hf. clear Hf.
      set (s1 := mkSt w1 _ _ _).
      destruct (scheduled_users_strong now (fetch_all_signals s0).1 (user :: rest) 0 s1)
        as (ds & evs & s' & Hr & (Hd & He & Hc & _) & [_ Hn] & _).
      rewrite Hr. cbn [fst snd]. cbn in Hd, He. rewrite Hd, He, !since_app.
      split_and!; [exact Hn | exact Hc | reflexivity |].
      split; intros H; discriminate H.
  - cbn. unfold since. rewrite !drop_all. cbn.
    split_and!; try reflexivity; [constructor | split; intros H; discriminate H].
Qed.

End ScheduledInvariants.

(** *** The user file and the registration endpoints *)

Section UserStore.
Import Store.

Lemma dict_get_set_eq {A} k (v : A) d : dict_get k (dict_set k v d) = Some v.
Proof.
  induction d as [|[k' v'] rest IH]; cbn.
  - rewrite String.eqb_refl. reflexivity.
  - destruct (String.eqb_spec k k') as [->|Hne]; cbn.
    + rewrite String.eqb_refl. reflexivity.
    + apply String.eqb_neq in Hne. rewrite Hne. exact IH.
Qed.

Lemma dict_get_set_ne {A} k k' (v : A) d :
  k <> k' -> dict_get k' (dict_set k v d) = dict_get k' d.
Proof.
  intros Hne. induction d as [|[k0 v0] rest IH]; cbn.
  - assert (String.eqb k' k = false) as -> by (apply String.eqb_neq; congruence). reflexivity.
  - destruct (String.eqb_spec k k0) as [->|Hne0]; cbn.
    + assert (String.eqb k' k0 = false) as -> by (apply String.eqb_neq; congruence).
      reflexivity.
    + destruct (String.eqb k' k0); [reflexivity | exact IH].
Qed.

Lemma dict_get_None {A} k (d : list (string * A)) : dict_get k d = None <-> k ∉ d.*1.
Proof.
  induction d as [|[k' v'] rest IH]; cbn.
  - split; [intros _ H; inversion H | reflexivity].
  - rewrite not_elem_of_cons. destruct (String.eqb_spec k k') as [->|Hne].
    + split; [discriminate | intros [H _]; contradiction].
    + rewrite IH. tauto.
Qed.

Lemma dict_get_elem {A} k (v : A) d : dict_get k d = Some v -> (k, v) ∈ d.
Proof.
  induction d as [|[k' v'] rest IH]; cbn; [discriminate|].
  destruct (String.eqb_spec k k') as [->|Hne].
  - intros [= ->]. left.
  - intros H. right. apply IH, H.
Qed.

Lemma dict_set_keys {A} k (v : A) d :
  (dict_set k v d).*1 = match dict_get k d with Some _ => d.*1 | None => d.*1 ++ [k] end.
Proof.
  induction d as [|[k' v'] rest IH]; cbn; [reflexivity|].
  destruct (String.eqb_spec k k') as [->|Hne]; cbn; [reflexivity|].
  rewrite IH. destruct (dict_get k rest); reflexivity.
Qed.

Lemma dict_set_Forall {A} (P : string * A -> Prop) k (v : A) d :
  Forall P d -> (forall k', P (k', v)) -> Forall P (dict_set k v d).
Proof.
  intros Hd Hv. induction Hd as [|[k' v'] rest Hx Hrest IH]; cbn.
  - constructor; [apply Hv | constructor].
  - destruct (String.eqb k k'); constructor; auto.
Qed.

Lemma dict_set_NoDup {A} k (v : A) d : NoDup d.*1 -> NoDup (dict_set k v d).*1.
Proof.
  intros Hd. rewrite dict_set_keys. destruct (dict_get k d) eqn:Hg; [exact Hd|].
  apply NoDup_app. split_and!; [exact Hd | | apply NoDup_singleton].
  intros x Hx Hk. apply list_elem_of_singleton in Hk as ->.
  apply dict_get_None in Hg. contradiction.
Qed.

Lemma truthy_Some s : truthy (Some s) = true <-> s <> "".
Proof. destruct s; cbn; split; congruence. Qed.

Lemma users_of_Some d : users_of (Some (Users d)) = d.
Proof. reflexivity. Qed.

Lemma load_data_readable file :
  readable file = true ->
  load_data file = (Some (users_of file), Some (Users (users_of file))).
Proof. destruct file as [[|users]|]; [discriminate | reflexivity | reflexivity]. Qed.

Lemma load_data_unreadable file :
  readable file = false -> load_data file = (None, file).
Proof. destruct file as [[|users]|]; [reflexivity | discriminate | discriminate]. Qed.

(** X10: on a user file that can be loaded (missing, or holding users), a
    valid [POST /api/connect] answers 200 with the user's entry and stores
    it: afterwards the user has the chat id [str(chat_id)]; a user who was
    already registered keeps the watchlist and only gets the new chat id, a
    new user starts with an empty watchlist and is added last; every other
    user is as before. *)
Theorem connect_telegram_registers username chat file :
  username <> "" ->
  chat_truthy (Some chat) = true ->
  readable file = true ->
  let r := connect_telegram (Some (mkConnect (Some username) (Some chat))) file in
  let user := mkUser (Some (str_of_chat chat))
                (match dict_get username (users_of file) with
                 | Some old => u_watchlist old
                 | None => []
                 end) in
  r.1 = Connected ("Telegram connected for user '" +:+ username +:+ "'") user
  /\ dict_get username (users_of r.2) = Some user
  /\ (forall other, other <> username ->
        dict_get other (users_of r.2) = dict_get other (users_of file))
  /\ (users_of r.2).*1
     = (match dict_get username (users_of file) with
        | Some _ => (users_of file).*1
        | None => (users_of file).*1 ++ [username]
        end).
Proof.
  intros Hu Hc Hread. cbv zeta. unfold connect_telegram. cbn [c_username c_chat_id].
  apply truthy_Some in Hu. rewrite Hu, Hc. cbn [negb orb default from_option id].
  rewrite (load_data_readable file Hread). unfold save_data.
  destruct (dict_get username (users_of file)) as [old|] eqn:Hg;
    cbn [fst snd]; rewrite users_of_Some, dict_get_set_eq; cbn [default from_option id];
    (split_and!; [reflexivity | reflexivity | | ]).
  - intros other Hne. apply dict_get_set_ne. congruence.
  - rewrite dict_set_keys, Hg. reflexivity.
  - intros other Hne. apply dict_get_set_ne. congruence.
  - rewrite dict_set_keys, Hg. reflexivity.
Qed.

(** X11: both endpoints answer 400 and leave the user file exactly as it
    is (a missing file is not created) when [request.get_json()] returned a
    falsy value or one of the two fields is missing or empty (for the chat
    id also the integer 0).  On a valid request with a user file that cannot
    be read the handler raises and the file is left as it is; with a file
    that can be loaded a valid connect request succeeds, and a valid
    watchlist request answers 404 or the watchlist. *)
Theorem endpoints_validate (cdata : option ConnectRequest) (wdata : option WatchlistRequest)
    (file : DataFile) :
  (if connect_valid cdata
   then if readable file
        then exists message user, (connect_telegram cdata file).1 = Connected message user
        else connect_telegram cdata file = (Crash, file)
   else exists error, connect_telegram cdata file = (Error 400 error, file))
  /\ (if watch_valid wdata
      then if readable file
           then (exists error, (add_to_watchlist wdata file).1 = Error 404 error)
                \/ (exists message watchlist,
                      (add_to_watchlist wdata file).1 = Watchlist message watchlist)
           else add_to_watchlist wdata file = (Crash, file)
      else exists error, add_to_watchlist wdata file = (Error 400 error, file)).
Proof.
  split.
  - unfold connect_valid, connect_telegram. destruct cdata as [data|]; [|eauto].
    destruct (truthy (c_username data)); cbn [andb negb orb]; [|eauto].
    destruct (chat_truthy (c_chat_id data)); cbn [negb]; [|eauto].
    destruct (readable file) eqn:Hread.
    + rewrite (load_data_readable file Hread).
      destruct (dict_get _ (users_of file)); eauto.
    + rewrite (load_data_unreadable file Hread). reflexivity.
  - unfold watch_valid, add_to_watchlist. destruct wdata as [data|]; [|eauto].
    destruct (truthy (w_username data)); cbn [andb negb orb]; [|eauto].
    destruct (truthy (w_keyword data)); cbn [negb]; [|eauto].
    destruct (readable file) eqn:Hread.
    + rewrite (load_data_readable file Hread).
      destruct (dict_get _ (users_of file)); [|eauto].
      destruct (bool_decide _); eauto.
    + rewrite (load_data_unreadable file Hread). reflexivity.
Qed.

Lemma truthy_recase m s : truthy (Some (PyStr.recase m s)) = truthy (Some s).
Proof. destruct s; reflexivity. Qed.

Lemma add_to_watchlist_cases username keyword file :
  let r := add_to_watchlist (Some (mkWatch (Some username) (Some keyword))) file in
  (exists error, r = (Error 400 error, file) /\ (username = "" \/ keyword = ""))
  \/ (r = (Crash, file) /\ username <> "" /\ keyword <> "" /\ readable file = false)
  \/ (exists error, r = (Error 404 error, Some (Users (users_of file)))
                    /\ username <> "" /\ keyword <> ""
                    /\ dict_get username (users_of file) = None)
  \/ (exists user, r = (Watchlist ("'" +:+ keyword +:+ "' already in watchlist")
                          (u_watchlist user), Some (Users (users_of file)))
                   /\ username <> "" /\ keyword <> ""
                   /\ dict_get username (users_of file) = Some user
                   /\ PyStr.lower keyword ∈ PyStr.lower <$> u_watchlist user)
  \/ (exists user, r = (Watchlist ("Added '" +:+ keyword +:+ "' to watchlist")
                          (u_watchlist user ++ [keyword]),
                        Some (Users (dict_set username
                                (mkUser (u_chat_id user) (u_watchlist user ++ [keyword]))
                                (users_of file))))
                   /\ username <> "" /\ keyword <> ""
                   /\ dict_get username (users_of file) = Some user
                   /\ PyStr.lower keyword ∉ PyStr.lower <$> u_watchlist user).
Proof.
  cbv zeta. unfold add_to_watchlist. cbn [w_username w_keyword].
  destruct (truthy (Some username)) eqn:Hu; cycle 1.
  { left. eexists. split; [reflexivity|]. left. destruct username; [reflexivity|discriminate]. }
  destruct (truthy (Some keyword)) eqn:Hk; cycle 1.
  { left. eexists. split; [reflexivity|]. right. destruct keyword; [reflexivity|discriminate]. }
  apply truthy_Some in Hu, Hk. cbn [negb orb default from_option id].
  destruct (readable file) eqn:Hread; cycle 1.
  { right. left. rewrite (load_data_unreadable file Hread). split_and!; auto. }
  rewrite (load_data_readable file Hread). unfold save_data.
  destruct (dict_get username (users_of file)) as [user|] eqn:Hg.
  - destruct (bool_decide _) eqn:Hd.
    + apply bool_decide_eq_true in Hd. do 4 right. exists user.
      split_and!; try assumption; reflexivity.
    + apply bool_decide_eq_false in Hd. do 3 right. left. exists user.
      split_and!; try assumption; try reflexivity.
      destruct (decide (PyStr.lower keyword ∈ PyStr.lower <$> u_watchlist user)); tauto.
  - right. right. left. eexists. split_and!; try assumption; reflexivity.
Qed.

(** X12: [POST /api/watchlist] never adds or removes a user and changes no
    other user's entry; the user it names keeps the chat id, and the old
    watchlist stays a prefix of the new one.  When it answers with a
    watchlist, that list is the stored watchlist of the user and contains the
    keyword up to case. *)
Theorem add_to_watchlist_effect username keyword file :
  let r := add_to_watchlist (Some (mkWatch (Some username) (Some keyword))) file in
  (users_of r.2).*1 = (users_of file).*1
  /\ (forall other, other <> username ->
        dict_get other (users_of r.2) = dict_get other (users_of file))
  /\ (forall user', dict_get username (users_of r.2) = Some user' ->
        exists user, dict_get username (users_of file) = Some user
                     /\ u_chat_id user' = u_chat_id user
                     /\ u_watchlist user `prefix_of` u_watchlist user')
  /\ (forall message watchlist,
        r.1 = Watchlist message watchlist ->
        exists user', dict_get username (users_of r.2) = Some user'
                      /\ u_watchlist user' = watchlist
                      /\ PyStr.lower keyword ∈ PyStr.lower <$> watchlist).
Proof.
  cbv zeta.
  destruct (add_to_watchlist_cases username keyword file)
    as [(e & -> & _) | [(-> & _) | [(e & -> & _ & _ & Hg)
       | [(user & -> & _ & _ & Hg & Hin) | (user & -> & _ & _ & Hg & Hnin)]]]];
    cbn [fst snd]; rewrite ?users_of_Some.
  - split_and!; [reflexivity | reflexivity | | discriminate].
    intros user' H. exists user'. split_and!; [exact H | reflexivity | reflexivity].
  - split_and!; [reflexivity | reflexivity | | discriminate].
    intros user' H. exists user'. split_and!; [exact H | reflexivity | reflexivity].
  - split_and!; [reflexivity | reflexivity | | discriminate].
    intros user' H. congruence.
  - split_and!; [reflexivity | reflexivity | |].
    + intros user' H. exists user'. split_and!; [exact H | reflexivity | reflexivity].
    + intros message watchlist [= _ <-]. exists user.
      split_and!; [exact Hg | reflexivity | exact Hin].
  - split_and!.
    + rewrite dict_set_keys, Hg. reflexivity.
    + intros other Hne. apply dict_get_set_ne. congruence.
    + intros user'. rewrite dict_get_set_eq. intros [= <-]. exists user.
      split_and!; [exact Hg | reflexivity | apply prefix_app_r; reflexivity].
    + intros message watchlist [= _ <-]. eexists. rewrite dict_get_set_eq.
      split_and!; [reflexivity | reflexivity |].
      rewrite fmap_app. apply elem_of_app. right. left.
Qed.

(** What a second request for the same keyword, in another ASCII case, does
    on each file the first request can leave. *)
Lemma add_to_watchlist_again (m : nat -> bool) username keyword users user :
  username <> "" -> keyword <> "" ->
  dict_get username users = Some user ->
  PyStr.lower keyword ∈ PyStr.lower <$> u_watchlist user ->
  add_to_watchlist (Some (mkWatch (Some username) (Some (PyStr.recase m keyword))))
    (Some (Users users))
  = (Watchlist ("'" +:+ PyStr.recase m keyword +:+ "' already in watchlist")
       (u_watchlist user), Some (Users users)).
Proof.
  intros Hu Hk Hg Hin.
  assert (Hrk : PyStr.recase m keyword <> "").
  { destruct keyword; [contradiction|]. discriminate. }
  destruct (add_to_watchlist_cases username (PyStr.recase m keyword) (Some (Users users)))
    as [(e & _ & [Hx|Hx]) | [(_ & _ & _ & Hx) | [(e & _ & _ & _ & Hx)
       | [(user' & Heq & _ & _ & Hg' & _) | (user' & _ & _ & _ & Hg' & Hnin)]]]].
  - contradiction.
  - contradiction.
  - discriminate Hx.
  - rewrite users_of_Some in Hx. congruence.
  - rewrite users_of_Some in Heq, Hg'. rewrite Heq.
    assert (user' = user) as -> by congruence. reflexivity.
  - rewrite users_of_Some in Hg'. assert (user' = user) as -> by congruence.
    rewrite lower_recase in Hnin. contradiction.
Qed.

(** X13: adding a keyword a second time, with any change of case of its
    ASCII letters, changes nothing: the user file after the second request
    is the file after the first, and the second answer is "already in
    watchlist" with the same list. *)
Theorem add_to_watchlist_idempotent (m : nat -> bool) username keyword file :
  let first := add_to_watchlist (Some (mkWatch (Some username) (Some keyword))) file in
  let again := add_to_watchlist
                 (Some (mkWatch (Some username) (Some (PyStr.recase m keyword)))) first.2 in
  again.2 = first.2
  /\ (forall message watchlist,
        first.1 = Watchlist message watchlist ->
        again.1 = Watchlist ("'" +:+ PyStr.recase m keyword +:+ "' already in watchlist")
                    watchlist).
Proof.
  cbv zeta.
  assert (Hrk : forall k, k <> "" -> PyStr.recase m k <> "").
  { intros k Hk. destruct k; [contradiction|]. discriminate. }
  destruct (add_to_watchlist_cases username keyword file)
    as [(e & -> & Hinv) | [(-> & Hu & Hk & Hread) | [(e & -> & Hu & Hk & Hg)
       | [(user & -> & Hu & Hk & Hg & Hin) | (user & -> & Hu & Hk & Hg & Hnin)]]]];
    cbn [fst snd].
  - split; [|discriminate].
    destruct (add_to_watchlist_cases username (PyStr.recase m keyword) file)
      as [(e' & -> & _) | [(_ & Hu' & Hk' & _) | [(e' & _ & Hu' & Hk' & _)
         | [(user & _ & Hu' & Hk' & _) | (user & _ & Hu' & Hk' & _)]]]]; [reflexivity|..];
      exfalso; (destruct Hinv as [->| ->]; [apply Hu'; reflexivity | apply Hk'; reflexivity]).
  - split; [|discriminate].
    destruct file as [[|users]|]; try discriminate Hread.
    unfold add_to_watchlist. cbn [w_username w_keyword].
    assert (truthy (Some username) = true) as -> by (apply truthy_Some; exact Hu).
    assert (truthy (Some (PyStr.recase m keyword)) = true) as ->
      by (apply truthy_Some, Hrk, Hk).
    reflexivity.
  - split; [|discriminate].
    destruct (add_to_watchlist_cases username (PyStr.recase m keyword)
                (Some (Users (users_of file))))
      as [(e' & _ & [Hx|Hx]) | [(_ & _ & _ & Hx) | [(e' & -> & _)
         | [(user & _ & _ & _ & Hx & _) | (user & _ & _ & _ & Hx & _)]]]];
      rewrite ?users_of_Some in *; try reflexivity; try contradiction;
      try discriminate; try congruence.
    exfalso. apply (Hrk keyword Hk Hx).
  - rewrite (add_to_watchlist_again m username keyword (users_of file) user Hu Hk Hg Hin).
    split; [reflexivity|]. intros message watchlist [= _ <-]. reflexivity.
  - set (user' := mkUser (u_chat_id user) (u_watchlist user ++ [keyword])).
    rewrite (add_to_watchlist_again m username keyword
               (dict_set username user' (users_of file)) user' Hu Hk).
    + split; [reflexivity|]. intros message watchlist [= _ <-]. reflexivity.
    + apply dict_get_set_eq.
    + subst user'. cbn [u_watchlist]. rewrite fmap_app. apply elem_of_app. right. left.
Qed.

Lemma store_ok_Some users :
  store_ok (Some (Users users))
  <-> NoDup users.*1 /\ Forall (fun user => NoDup (PyStr.lower <$> u_watchlist user.2)) users.
Proof. reflexivity. Qed.

Lemma store_ok_load file : store_ok file -> store_ok (Some (Users (users_of file))).
Proof. destruct file as [[|users]|]; intros H; exact H. Qed.

Lemma connect_telegram_ok data file :
  store_ok file -> store_ok (connect_telegram data file).2.
Proof.
  intros Hok. unfold connect_telegram. destruct data as [data|]; [|exact Hok].
  destruct (negb _ || negb _); [exact Hok|].
  destruct (readable file) eqn:Hread; cycle 1.
  { rewrite (load_data_unreadable file Hread). exact Hok. }
  rewrite (load_data_readable file Hread).
  apply store_ok_load, store_ok_Some in Hok as [Hk Hw]. unfold save_data.
  destruct (dict_get _ (users_of file)) as [old|] eqn:Hg; cbn [snd];
    apply store_ok_Some; split;
    try (apply dict_set_NoDup; exact Hk);
    (apply dict_set_Forall; [exact Hw|]); intros k'; cbn.
  - apply dict_get_elem in Hg. rewrite Forall_forall in Hw. apply (Hw _ Hg).
  - constructor.
Qed.

Lemma add_to_watchlist_ok data file :
  store_ok file -> store_ok (add_to_watchlist data file).2.
Proof.
  intros Hok. destruct data as [[[username|] [keyword|]]|];
    try (unfold add_to_watchlist; cbn [w_username w_keyword truthy negb orb];
         rewrite ?orb_true_r; exact Hok).
  destruct (add_to_watchlist_cases username keyword file)
    as [(e & -> & _) | [(-> & _) | [(e & -> & _) | [(user & -> & _)
       | (user & -> & _ & _ & Hg & Hnin)]]]]; cbn [snd];
    try exact Hok; try (apply store_ok_load; exact Hok).
  apply store_ok_load, store_ok_Some in Hok as [Hk Hw].
  apply store_ok_Some. split; [apply dict_set_NoDup; exact Hk|].
  apply dict_set_Forall; [exact Hw|]. intros k'. cbn.
  rewrite fmap_app. apply NoDup_app. split_and!.
  - apply dict_get_elem in Hg. rewrite Forall_forall in Hw. apply (Hw _ Hg).
  - intros x Hx Hk'. apply list_elem_of_singleton in Hk' as ->. contradiction.
  - apply NoDup_singleton.
Qed.

(** X14: both endpoints keep the user file well-formed: usernames stay
    distinct and no watchlist gets two entries that are equal up to case.
    Every file built from a missing file by any sequence of requests has
    this shape. *)
Theorem store_shape_kept :
  (forall req file, store_ok file -> store_ok (handle req file).2)
  /\ (forall reqs, store_ok (serve reqs None)).
Proof.
  assert (Hstep : forall req file, store_ok file -> store_ok (handle req file).2).
  { intros [data|data] file Hok; [apply connect_telegram_ok | apply add_to_watchlist_ok];
      exact Hok. }
  split; [exact Hstep|].
  intros reqs. unfold serve.
  assert (Hall : forall file, store_ok file ->
                   store_ok (foldl (fun file req => (handle req file).2) file reqs)).
  { induction reqs as [|req rest IH]; intros file Hok; [exact Hok|].
    cbn. apply IH, Hstep, Hok. }
  apply Hall. split; constructor.
Qed.

(** X15: once [POST /api/watchlist] has answered with a watchlist for a
    keyword, every signal the on-demand path processes that carries that
    keyword, in any case, is a match for the user: the keyword is in the
    keyword match against the stored watchlist. *)
Theorem watched_keyword_matches username keyword file (a : Analyzed) k :
  let r := add_to_watchlist (Some (mkWatch (Some username) (Some keyword))) file in
  (exists message watchlist, r.1 = Watchlist message watchlist) ->
  processed a = true ->
  k ∈ sig_keywords (a_signal a) ->
  PyStr.lower k = PyStr.lower keyword ->
  exists user,
    dict_get username (users_of r.2) = Some user
    /\ PyStr.lower keyword
         ∈ matched_keywords (sig_keywords (a_signal a)) (u_watchlist user)
    /\ is_match a user = true.
Proof.
  cbv zeta. intros (message & watchlist & Hr) Hp Hk Hl.
  assert (Hpost : exists user,
            dict_get username
              (users_of (add_to_watchlist
                           (Some (mkWatch (Some username) (Some keyword))) file).2)
            = Some user
            /\ PyStr.lower keyword ∈ PyStr.lower <$> u_watchlist user).
  { destruct (add_to_watchlist_cases username keyword file)
      as [(e & Heq & _) | [(Heq & _) | [(e & Heq & _) | [(user & Heq & _ & _ & Hg & Hin)
         | (user & Heq & _ & _ & Hg & Hnin)]]]]; rewrite Heq in Hr |- *;
      cbn [fst snd] in *; try discriminate; rewrite users_of_Some.
    - exists user. split; assumption.
    - eexists. rewrite dict_get_set_eq. split; [reflexivity|]. cbn [u_watchlist].
      rewrite fmap_app. apply elem_of_app. right. left. }
  destruct Hpost as (user & Hg & Hin).
  exists user. split; [exact Hg|].
  assert (Hm : PyStr.lower keyword
                 ∈ matched_keywords (sig_keywords (a_signal a)) (u_watchlist user)).
  { unfold matched_keywords. apply elem_of_intersection.
    rewrite !elem_of_list_to_set. split; [|exact Hin].
    apply list_elem_of_fmap. exists k. split; [symmetry; exact Hl | exact Hk]. }
  split; [exact Hm|]. unfold is_match. rewrite Hp. cbn [andb].
  apply nonempty_iff. intros Hempty. rewrite Hempty in Hm. set_solver.
Qed.

End UserStore.

(** A first connect on a missing file, with an integer chat id. *)
Lemma connect_telegram_registers_witness :
  (Store.connect_telegram
     (Some (Store.mkConnect (Some "alice") (Some (Store.ChatInt 42)))) None).1
    = Store.Connected "Telegram connected for user 'alice'" (mkUser (Some "42") [])
  /\ Store.dict_get "alice"
       (Store.users_of
          (Store.connect_telegram
             (Some (Store.mkConnect (Some "alice") (Some (Store.ChatInt 42)))) None).2)
     = Some (mkUser (Some "42") []).
Proof.
  pose proof (connect_telegram_registers "alice" (Store.ChatInt 42) None
                ltac:(discriminate) eq_refl eq_refl) as H.
  cbv zeta in H. split; [exact (proj1 H) | exact (proj1 (proj2 H))].
Defined.

(** A user who adds "bitcoin" is matched by a processed signal tagged
    "Bitcoin". *)
Lemma watched_keyword_matches_witness :
  exists user,
    Store.dict_get "alice"
      (Store.users_of
         (Store.add_to_watchlist
            (Some (Store.mkWatch (Some "alice") (Some "bitcoin")))
            (Some (Store.Users [("alice", mkUser (Some "42") [])]))).2) = Some user
    /\ PyStr.lower "bitcoin"
         ∈ matched_keywords
             (sig_keywords
                (a_signal (mkAnalyzed Fixture.bitcoin_signal Negative (-0.6)%Q ""
                             critical "Monitor")))
             (u_watchlist user)
    /\ is_match (mkAnalyzed Fixture.bitcoin_signal Negative (-0.6)%Q "" critical "Monitor")
         user = true.
Proof.
  apply (watched_keyword_matches "alice" "bitcoin"
           (Some (Store.Users [("alice", mkUser (Some "42") [])]))
           (mkAnalyzed Fixture.bitcoin_signal Negative (-0.6)%Q "" critical "Monitor")
           "Bitcoin").
  - eexists _, _. reflexivity.
  - reflexivity.
  - left.
  - reflexivity.
Defined.
